(** * Headless turn-loop driver of the CLI: a shallow embedding

    Source files:
    - [packages/cli/src/nonInteractiveCli.ts]
      ([getResponseText], [formatToolArgs], [displayToolCallInfo],
      [runNonInteractive]);
    - [packages/cli/src/utils/userStartupWarnings.ts]
      ([homeDirectoryCheck], [nodeVersionCheck], [getUserStartupWarnings]).

    Conventions.  A JavaScript string is a Rocq [string] holding the UTF-8
    encoding of its text.  An optional field [f?: T] is an [option T].  A
    JavaScript number that the code only counts with is a [Z]; a clock reading
    ([Date.now()], milliseconds since the epoch) is an [N].  Everything the
    driver does to the outside world is recorded, in order, in a trace of
    [Event]s. *)

From Stdlib Require Import String Ascii List Bool ZArith NArith Lia.
From Stdlib Require Import DecimalString DecimalN.
Import ListNotations.

Local Open Scope list_scope.
Local Open Scope string_scope.

(** ** JavaScript string primitives *)

Module Js.

Definition LF : string := String (ascii_of_nat 10) EmptyString.
Definition DQUOTE : string := String (ascii_of_nat 34) EmptyString.

(** Truthiness of a string: every string but the empty one. *)
Definition truthy (s : string) : bool :=
  match s with
  | EmptyString => false
  | String _ _ => true
  end.

(** [needle] is a prefix of [s]. *)
Fixpoint startsWith (needle s : string) : bool :=
  match needle, s with
  | EmptyString, _ => true
  | String _ _, EmptyString => false
  | String a n', String b s' => Ascii.eqb a b && startsWith n' s'
  end.

(** [s.includes(needle)]. *)
Fixpoint includes (needle s : string) : bool :=
  startsWith needle s ||
  match s with
  | EmptyString => false
  | String _ s' => includes needle s'
  end.

(** [xs.join('')]. *)
Definition join (xs : list string) : string :=
  fold_right String.append EmptyString xs.

Definition bytes (l : list nat) : string :=
  string_of_list_ascii (map ascii_of_nat l).

Definition reverse (s : string) : string :=
  string_of_list_ascii (rev (list_ascii_of_string s)).

(** The UTF-8 encodings of the code points that ECMAScript counts as
    WhiteSpace or LineTerminator, which is what [trim] strips:
    U+0009..U+000D, U+0020, U+00A0, U+1680, U+2000..U+200A, U+2028,
    U+2029, U+202F, U+205F, U+3000, U+FEFF. *)
Definition whiteSpace : list string :=
  map bytes
    [ [9]; [10]; [11]; [12]; [13]; [32];
      [194; 160];
      [225; 154; 128];
      [226; 128; 128]; [226; 128; 129]; [226; 128; 130]; [226; 128; 131];
      [226; 128; 132]; [226; 128; 133]; [226; 128; 134]; [226; 128; 135];
      [226; 128; 136]; [226; 128; 137]; [226; 128; 138];
      [226; 128; 168]; [226; 128; 169]; [226; 128; 175];
      [226; 129; 159];
      [227; 128; 128];
      [239; 187; 191] ].

(** Drop [needle] from the front of [s], if it is there. *)
Fixpoint dropPrefix (needle s : string) : option string :=
  match needle, s with
  | EmptyString, _ => Some s
  | String _ _, EmptyString => None
  | String a n', String b s' =>
      if Ascii.eqb a b then dropPrefix n' s' else None
  end.

Fixpoint dropAny (needles : list string) (s : string) : option string :=
  match needles with
  | [] => None
  | n :: ns =>
      match dropPrefix n s with
      | Some r => Some r
      | None => dropAny ns s
      end
  end.

Fixpoint trimStartWith (ws : list string) (fuel : nat) (s : string) : string :=
  match fuel with
  | O => s
  | S fuel' =>
      match dropAny ws s with
      | Some r => trimStartWith ws fuel' r
      | None => s
      end
  end.

Definition trimStart (s : string) : string :=
  trimStartWith whiteSpace (String.length s) s.

Definition trimEnd (s : string) : string :=
  reverse (trimStartWith (map reverse whiteSpace) (String.length s) (reverse s)).

(** [s.trim()]. *)
Definition trim (s : string) : string := trimEnd (trimStart s).

(** [`${n}`] for a non-negative integer below 10^21: its decimal digits. *)
Definition decimal (n : N) : string := NilZero.string_of_uint (N.to_uint n).

(** [s] has a hyphen in it. *)
Fixpoint hasDash (s : string) : bool :=
  match s with
  | EmptyString => false
  | String c s' => Ascii.eqb c "-" || hasDash s'
  end.

End Js.

(** ** Data model *)

(** [Part] of [@google/genai]: the driver looks at [text] and [thought] only;
    whatever else a part carries (a function response, inline data, ...) is
    the opaque [payload]. *)
Record Part : Type := mkPart {
  text : option string;
  thought : option bool;
  payload : option string
}.

Definition asTextPart (s : string) : Part :=
  {| text := Some s; thought := None; payload := None |}.

Record Content : Type := mkContent {
  role : option string;
  parts : option (list Part)
}.

Record Candidate : Type := mkCandidate {
  content : option Content
}.

(** An argument value, as far as [formatToolArgs] tells values apart: a
    string, a non-null object or array (with its [JSON.stringify] rendering),
    or anything else (with its [String(value)] rendering). *)
Inductive ArgValue : Type :=
| AString (s : string)
| AObject (json : string)
| AScalar (repr : string).

Definition Args : Type := list (string * ArgValue).

Record FunctionCall : Type := mkFunctionCall {
  id : option string;
  name : string;
  args : option Args
}.

Record GenerateContentResponse : Type := mkResponse {
  candidates : option (list Candidate);
  functionCalls : option (list FunctionCall)
}.

Record ToolCallRequestInfo : Type := mkRequest {
  callId : string;
  reqName : string;
  reqArgs : Args;
  isClientInitiated : bool;
  prompt_id : string
}.

(** [ToolResultDisplay]: a string, a file diff, or some other object that
    has no [fileDiff] key ([repr] is what a template literal prints for it). *)
Inductive ToolResultDisplay : Type :=
| RDString (s : string)
| RDFileDiff (fileName fileDiff : string)
| RDObject (repr : string).

Record ToolError : Type := mkError {
  message : string
}.

Inductive PartUnion : Type :=
| PUString (s : string)
| PUPart (p : Part).

Inductive PartListUnion : Type :=
| PLOne (p : PartUnion)
| PLArray (ps : list PartUnion).

Record ToolCallResponseInfo : Type := mkToolResponse {
  error : option ToolError;
  resultDisplay : option ToolResultDisplay;
  responseParts : option PartListUnion
}.

(** ** [getResponseText] *)

Definition truthyFlag (b : option bool) : bool :=
  match b with
  | Some true => true
  | _ => false
  end.

Definition truthyText (t : option string) : bool :=
  match t with
  | Some s => Js.truthy s
  | None => false
  end.

(** [parts.filter((part) => part.text).map((part) => part.text)]. *)
Fixpoint truthyTexts (ps : list Part) : list string :=
  match ps with
  | [] => []
  | p :: ps' =>
      match text p with
      | Some s => if Js.truthy s then s :: truthyTexts ps' else truthyTexts ps'
      | None => truthyTexts ps'
      end
  end.

Definition getResponseText (response : GenerateContentResponse) : option string :=
  match candidates response with
  | Some (candidate :: _) =>
      match content candidate with
      | Some c =>
          match parts c with
          | Some (thoughtPart :: rest) =>
              if truthyFlag (thought thoughtPart) then None
              else Some (Js.join (truthyTexts (thoughtPart :: rest)))
          | _ => None
          end
      | None => None
      end
  | _ => None
  end.

(** ** [formatToolArgs] *)

Fixpoint joinWith (sep : string) (xs : list string) : string :=
  match xs with
  | [] => EmptyString
  | [x] => x
  | x :: xs' => x ++ sep ++ joinWith sep xs'
  end.

Definition formatArg (entry : string * ArgValue) : string :=
  let (key, value) := entry in
  match value with
  | AString s => key ++ ": " ++ Js.DQUOTE ++ s ++ Js.DQUOTE
  | AObject json => key ++ ": " ++ json
  | AScalar repr => key ++ ": " ++ repr
  end.

Definition formatToolArgs (args : Args) : string :=
  match args with
  | [] => "(no arguments)"
  | _ :: _ => "(" ++ joinWith ", " (map formatArg args) ++ ")"
  end.

(** ** [displayToolCallInfo]

    The function writes to [process.stdout]; the model returns the strings
    written, in order.  [timestamp] is [new Date().toLocaleTimeString()]. *)

Inductive Status : Type :=
| Start
| Success
| Error
| Unknown (status : string).

(** Truthiness of a result display: objects always, strings when non-empty. *)
Definition truthyDisplay (rd : ToolResultDisplay) : bool :=
  match rd with
  | RDString s => Js.truthy s
  | RDFileDiff _ _ => true
  | RDObject _ => true
  end.

(** What a template literal prints for an optional string. *)
Definition showOptional (s : option string) : string :=
  match s with
  | Some s' => s'
  | None => "undefined"
  end.

Definition completedBanner (timestamp toolName : string) : string :=
  "[" ++ timestamp ++ "] ✅ Tool " ++ toolName ++ " completed successfully" ++ Js.LF.

Definition noOutputBanner (timestamp toolName : string) : string :=
  "[" ++ timestamp ++ "] ✅ Tool " ++ toolName
      ++ " completed successfully (no output)" ++ Js.LF.

Definition displayToolCallInfo (timestamp toolName : string) (args : Args)
    (status : Status) (resultDisplay : option ToolResultDisplay)
    (errorMessage : option string) : list string :=
  let argsStr := formatToolArgs args in
  match status with
  | Start =>
      [ Js.LF ++ "[" ++ timestamp ++ "] 🔧 Executing tool: " ++ toolName
          ++ " " ++ argsStr ++ Js.LF ]
  | Success =>
      match resultDisplay with
      | Some rd =>
          if truthyDisplay rd then
            match rd with
            | RDString s =>
                if Js.truthy (Js.trim s) then
                  [ completedBanner timestamp toolName;
                    "📋 Result:" ++ Js.LF ++ s ++ Js.LF ]
                else [ noOutputBanner timestamp toolName ]
            | RDFileDiff fileName fileDiff =>
                [ completedBanner timestamp toolName;
                  "📋 File: " ++ fileName ++ Js.LF;
                  "📋 Diff:" ++ Js.LF ++ fileDiff ++ Js.LF ]
            | RDObject _ => [ noOutputBanner timestamp toolName ]
            end
          else [ noOutputBanner timestamp toolName ]
      | None => [ noOutputBanner timestamp toolName ]
      end
  | Error =>
      [ "[" ++ timestamp ++ "] ❌ Tool " ++ toolName ++ " failed: "
          ++ showOptional errorMessage ++ Js.LF ]
  | Unknown status' =>
      [ "[" ++ timestamp ++ "] ⚠️ Tool " ++ toolName
          ++ " reported unknown status: " ++ status' ++ Js.LF ]
  end.

(** ** The outside world of [runNonInteractive] *)

(** What the driver does that can be observed from outside, in order. *)
Inductive Event : Type :=
| Stdout (s : string)                              (* process.stdout.write(s) *)
| Stderr (s : string)                              (* console.error(s) *)
| SendMessage (msg : list Part) (promptId : string) (* chat.sendMessageStream *)
| Dispatch (request : ToolCallRequestInfo)          (* executeToolCall *)
| ShutdownTelemetry.                               (* shutdownTelemetry() *)

(** The stream returned by [chat.sendMessageStream]: the chunks it yields
    and, when [failure] is set, the error it throws once they are
    exhausted (a stream that fails at once has no chunks). *)
Record ResponseStream : Type := mkStream {
  chunks : list GenerateContentResponse;
  failure : option string
}.

(** One run of [executeToolCall]: the response it resolves to ([inr]) or the
    error it rejects with ([inl]), and the milliseconds that passed. *)
Record ToolRun : Type := mkToolRun {
  outcome : string + ToolCallResponseInfo;
  elapsed : N
}.

(** The ways the body of the [try] block completes abruptly. *)
Inductive StopReason : Type :=
| Completed            (* a pass ended with no function call *)
| TurnLimitReached     (* the turn budget is used up *)
| Cancelled.           (* the abort signal was seen set *)

Inductive Abrupt : Type :=
| Return (why : StopReason)     (* [return] *)
| Exit (code : Z)               (* [process.exit(code)] *)
| Throw (err : string).         (* an exception on its way to [catch] *)

(** How [runNonInteractive] ends. *)
Inductive Final : Type :=
| Returned (why : StopReason)
| Exited (code : Z).

(** The exit status the process ends with: the one given to [process.exit],
    and 0 when [runNonInteractive] returns. *)
Definition exitStatus (f : Final) : Z :=
  match f with
  | Returned _ => 0
  | Exited code => code
  end.

Definition maxTurnsMessage : string :=
  Js.LF ++ " Reached max session turns for this session. Increase the number of turns by specifying maxSessionTurns in settings.json.".

Definition notFoundMarker : string := "not found in registry".

Section Driver.

(** States of the model client (the chat session) and of the tool
    dispatcher with its registry: both are external. *)
Variables Client Tools : Type.

Record Env : Type := mkEnv {
  getMaxSessionTurns : Z;
  sendMessageStream : Client -> list Part -> string -> ResponseStream * Client;
  executeToolCall : Tools -> ToolCallRequestInfo -> ToolRun * Tools;
  (** [abortController.signal.aborted], read during turn [t] once [k]
      chunks of that turn's stream have been processed. *)
  signalAborted : Z -> nat -> bool;
  (** [new Date(ms).toLocaleTimeString()]. *)
  toLocaleTimeString : N -> string;
  (** [parseAndFormatApiError(error, authType)]. *)
  parseAndFormatApiError : string -> string;
  isTelemetrySdkInitialized : bool
}.

Record World : Type := mkWorld {
  trace : list Event;
  now : N;                      (* Date.now() *)
  client : Client;
  tools : Tools
}.

Record LoopState : Type := mkLoop {
  world : World;
  currentMessages : list Content;
  turnCount : Z
}.

Variable env : Env.

Definition emit (es : list Event) (w : World) : World :=
  {| trace := (trace w ++ es)%list; now := now w;
     client := client w; tools := tools w |}.

(** *** The [for await] loop over the response stream

    [k] chunks of this turn have been processed; [calls] is the array
    [functionCalls] accumulated so far. *)
Fixpoint consumeStream (t : Z) (k : nat)
    (responseStream : list GenerateContentResponse)
    (w : World) (calls : list FunctionCall)
    : Abrupt * World + World * list FunctionCall :=
  match responseStream with
  | [] => inr (w, calls)
  | resp :: rest =>
      if signalAborted env t k then
        inl (Return Cancelled, emit [Stderr "Operation cancelled."] w)
      else
        let w1 :=
          match getResponseText resp with
          | Some textPart =>
              if Js.truthy textPart then emit [Stdout textPart] w else w
          | None => w
          end in
        let calls1 :=
          match functionCalls resp with
          | Some fcs => (calls ++ fcs)%list
          | None => calls
          end in
        consumeStream t (S k) rest w1 calls1
  end.

(** *** The body of the [for (const fc of functionCalls)] loop *)

Definition synthesizeCallId (fcName : string) (ms : N) : string :=
  fcName ++ "-" ++ Js.decimal ms.

(** [fc.args ?? {}]. *)
Definition argsOf (fc : FunctionCall) : Args :=
  match args fc with
  | Some a => a
  | None => []
  end.

Definition requestFor (promptId : string) (fc : FunctionCall) (ms : N)
    : ToolCallRequestInfo :=
  {| callId := match id fc with
               | Some i => i
               | None => synthesizeCallId (name fc) ms
               end;
     reqName := name fc;
     reqArgs := argsOf fc;
     isClientInitiated := false;
     prompt_id := promptId |}.

Definition display (w : World) (toolName : string) (a : Args)
    (status : Status) (rd : option ToolResultDisplay)
    (errorMessage : option string) : list Event :=
  map Stdout
    (displayToolCallInfo (toLocaleTimeString env (now w)) toolName a status
       rd errorMessage).

(** The [toolResponse.resultDisplay || toolResponse.error.message] of the
    line written to standard error. *)
Definition displayOrMessage (rd : option ToolResultDisplay) (e : ToolError)
    : string :=
  match rd with
  | Some (RDString s) => if Js.truthy s then s else message e
  | Some (RDFileDiff _ _) => "[object Object]"
  | Some (RDObject repr) => repr
  | None => message e
  end.

Definition wrapPart (p : PartUnion) : Part :=
  match p with
  | PUString s => asTextPart s
  | PUPart p' => p'
  end.

(** The parts pushed onto [toolResponseParts] for one response. *)
Definition normalizeParts (rp : option PartListUnion) : list Part :=
  match rp with
  | None => []
  | Some (PLOne (PUString s)) => if Js.truthy s then [asTextPart s] else []
  | Some (PLOne (PUPart p)) => [p]
  | Some (PLArray ps) => map wrapPart ps
  end.

(** The events of reporting a response that carries an error. *)
Definition errorReport (w : World) (fc : FunctionCall)
    (toolResponse : ToolCallResponseInfo) (e : ToolError) : list Event :=
  let a := argsOf fc in
  let errorMessage :=
    match resultDisplay toolResponse with
    | Some (RDString s) => s
    | _ => message e
    end in
  (display w (name fc) a Error None (Some errorMessage)
   ++ [Stderr ("Error executing tool " ++ name fc ++ ": "
               ++ displayOrMessage (resultDisplay toolResponse) e)])%list.

Definition dispatchCall (promptId : string) (fc : FunctionCall)
    (w : World) (toolResponseParts : list Part)
    : Abrupt * World + World * list Part :=
  let requestInfo := requestFor promptId fc (now w) in
  let a := argsOf fc in
  let w1 := emit (display w (name fc) a Start None None) w in
  let (run, tools1) := executeToolCall env (tools w1) requestInfo in
  let w2 :=
    {| trace := (trace w1 ++ [Dispatch requestInfo])%list;
       now := (now w1 + elapsed run)%N;
       client := client w1; tools := tools1 |} in
  match outcome run with
  | inl err => inl (Throw err, w2)
  | inr toolResponse =>
      let reported : Abrupt * World + World :=
        match error toolResponse with
        | Some e =>
            let w3 := emit (errorReport w2 fc toolResponse e) w2 in
            let isToolNotFound := Js.includes notFoundMarker (message e) in
            if negb isToolNotFound then inl (Exit 1, w3) else inr w3
        | None =>
            inr (emit (display w2 (name fc) a Success
                         (resultDisplay toolResponse) None) w2)
        end in
      match reported with
      | inl stop => inl stop
      | inr w4 =>
          inr (w4,
               (toolResponseParts
                ++ normalizeParts (responseParts toolResponse))%list)
      end
  end.

Fixpoint dispatchCalls (promptId : string) (fcs : list FunctionCall)
    (w : World) (toolResponseParts : list Part)
    : Abrupt * World + World * list Part :=
  match fcs with
  | [] => inr (w, toolResponseParts)
  | fc :: rest =>
      match dispatchCall promptId fc w toolResponseParts with
      | inl stop => inl stop
      | inr (w1, parts1) => dispatchCalls promptId rest w1 parts1
      end
  end.

(** *** One iteration of [while (true)] *)

Definition userTurn (ps : list Part) : Content :=
  {| role := Some "user"; parts := Some ps |}.

(** [currentMessages[0]?.parts || []]. *)
Definition messageOf (msgs : list Content) : list Part :=
  match msgs with
  | c :: _ => match parts c with Some ps => ps | None => [] end
  | [] => []
  end.

(** What follows the stream loop: [if (functionCalls.length > 0) ... else
    ...], with [turnCount1] the count of the running iteration. *)
Definition afterStream (promptId : string) (turnCount1 : Z)
    (calls : list FunctionCall) (w : World) : Abrupt * World + LoopState :=
  match calls with
  | [] => inl (Return Completed, emit [Stdout Js.LF] w)
  | _ :: _ =>
      match dispatchCalls promptId calls w [] with
      | inl stop => inl stop
      | inr (w1, toolResponseParts) =>
          inr {| world := w1;
                 currentMessages := [userTurn toolResponseParts];
                 turnCount := turnCount1 |}
      end
  end.

Definition turn (promptId : string) (st : LoopState)
    : Abrupt * World + LoopState :=
  let w := world st in
  let turnCount1 := (turnCount st + 1)%Z in
  if (0 <? getMaxSessionTurns env)%Z
     && (getMaxSessionTurns env <? turnCount1)%Z then
    inl (Return TurnLimitReached, emit [Stderr maxTurnsMessage] w)
  else
    let msg := messageOf (currentMessages st) in
    let (responseStream, client1) :=
      sendMessageStream env (client w) msg promptId in
    let w1 :=
      {| trace := (trace w ++ [SendMessage msg promptId])%list;
         now := now w; client := client1; tools := tools w |} in
    match consumeStream turnCount1 0 (chunks responseStream) w1 [] with
    | inl stop => inl stop
    | inr (w2, calls) =>
        match failure responseStream with
        | Some err => inl (Throw err, w2)
        | None => afterStream promptId turnCount1 calls w2
        end
    end.

(** [while (true)], run for at most [fuel] iterations: [None] when the
    loop is still going after that many. *)
Fixpoint loop (fuel : nat) (promptId : string) (st : LoopState)
    : option (Abrupt * World) :=
  match fuel with
  | O => None
  | S fuel' =>
      match turn promptId st with
      | inl stop => Some stop
      | inr st1 => loop fuel' promptId st1
      end
  end.

(** *** [runNonInteractive]

    [process.exit] ends the process where it is called, so neither [catch]
    nor [finally] runs after it. *)
Definition initialState (input : string) (w : World) : LoopState :=
  {| world := w; currentMessages := [userTurn [asTextPart input]];
     turnCount := 0 |}.

Definition finish (r : Abrupt * World) : Final * World :=
  match r with
  | (Return why, w) =>
      (Returned why,
       if isTelemetrySdkInitialized env then emit [ShutdownTelemetry] w
       else w)
  | (Exit code, w) => (Exited code, w)
  | (Throw err, w) =>
      (Exited 1, emit [Stderr (parseAndFormatApiError env err)] w)
  end.

Definition runNonInteractive (fuel : nat) (input promptId : string)
    (w : World) : option (Final * World) :=
  option_map finish (loop fuel promptId (initialState input w)).

End Driver.

Arguments getMaxSessionTurns {Client Tools} _.
Arguments sendMessageStream {Client Tools} _ _ _ _.
Arguments executeToolCall {Client Tools} _ _ _.
Arguments signalAborted {Client Tools} _ _ _.
Arguments toLocaleTimeString {Client Tools} _ _.
Arguments parseAndFormatApiError {Client Tools} _ _.
Arguments isTelemetrySdkInitialized {Client Tools} _.
Arguments mkWorld {Client Tools} _ _ _ _.
Arguments trace {Client Tools} _.
Arguments now {Client Tools} _.
Arguments client {Client Tools} _.
Arguments tools {Client Tools} _.
Arguments mkLoop {Client Tools} _ _ _.
Arguments world {Client Tools} _.
Arguments currentMessages {Client Tools} _.
Arguments turnCount {Client Tools} _.
Arguments emit {Client Tools} _ _.
Arguments consumeStream {Client Tools} _ _ _ _ _ _.
Arguments display {Client Tools} _ _ _ _ _ _ _.
Arguments errorReport {Client Tools} _ _ _ _ _.
Arguments dispatchCall {Client Tools} _ _ _ _ _.
Arguments dispatchCalls {Client Tools} _ _ _ _ _.
Arguments afterStream {Client Tools} _ _ _ _ _.
Arguments turn {Client Tools} _ _ _.
Arguments loop {Client Tools} _ _ _ _.
Arguments initialState {Client Tools} _ _.
Arguments finish {Client Tools} _ _.
Arguments runNonInteractive {Client Tools} _ _ _ _ _.

(** ** Startup warnings ([userStartupWarnings.ts]) *)

Module StartupWarnings.

(** How a promise (or a call that may throw) settles. *)
Inductive Settled (A : Type) : Type :=
| Resolved (a : A)
| Rejected.
Arguments Resolved {A} _.
Arguments Rejected {A}.

(** [Promise.all]: rejects as soon as one member does, and keeps the
    order of its members otherwise. *)
Fixpoint promiseAll {A : Type} (ps : list (Settled A)) : Settled (list A) :=
  match ps with
  | [] => Resolved []
  | p :: ps' =>
      match p, promiseAll ps' with
      | Resolved a, Resolved l => Resolved (a :: l)
      | _, _ => Rejected
      end
  end.

Definition homeDirectoryWarning : string :=
  "You are running MINE-AI Code in your home directory. It is recommended to run in a project-specific directory.".

Definition fileSystemWarning : string :=
  "Could not verify the current directory due to a file system error.".

Definition minMajor : N := 20.

Section Checks.

(** [fs.realpath], [os.homedir()], [process.versions.node] and
    [semver.major] belong to the runtime and its libraries. *)
Variable realpath : string -> Settled string.
Variable homedir : Settled string.
Variable nodeVersion : string.
Variable semverMajor : string -> Settled N.

Record WarningCheck : Type := mkCheck {
  checkId : string;
  check : string -> Settled (option string)
}.

Definition homeDirectoryCheck : WarningCheck :=
  {| checkId := "home-directory";
     check := fun workspaceRoot =>
       let attempt :=
         match homedir with
         | Resolved home =>
             promiseAll [realpath workspaceRoot; realpath home]
         | Rejected => Rejected
         end in
       match attempt with
       | Resolved [workspaceRealPath; homeRealPath] =>
           if String.eqb workspaceRealPath homeRealPath then
             Resolved (Some homeDirectoryWarning)
           else Resolved None
       | _ => Resolved (Some fileSystemWarning)
       end |}.

Definition nodeVersionCheck : WarningCheck :=
  {| checkId := "node-version";
     check := fun _workspaceRoot =>
       match semverMajor nodeVersion with
       | Resolved major =>
           if (major <? minMajor)%N then
             Resolved
               (Some ("You are using Node.js v" ++ nodeVersion
                      ++ ". Gemini CLI requires Node.js "
                      ++ Js.decimal minMajor
                      ++ " or higher for best results."))
           else Resolved None
       | Rejected => Rejected
       end |}.

Definition WARNING_CHECKS : list WarningCheck :=
  [homeDirectoryCheck; nodeVersionCheck].

(** [results.filter((msg) => msg !== null)]. *)
Fixpoint nonNull (results : list (option string)) : list string :=
  match results with
  | [] => []
  | Some msg :: rest => msg :: nonNull rest
  | None :: rest => nonNull rest
  end.

Definition getUserStartupWarnings (workspaceRoot : string)
    : Settled (list string) :=
  match promiseAll (map (fun c => check c workspaceRoot) WARNING_CHECKS) with
  | Resolved results => Resolved (nonNull results)
  | Rejected => Rejected
  end.

End Checks.

End StartupWarnings.

(** ** Reading a trace *)

(** The requests handed to the dispatcher, in order. *)
Fixpoint dispatched (tr : list Event) : list ToolCallRequestInfo :=
  match tr with
  | [] => []
  | Dispatch request :: tr' => request :: dispatched tr'
  | _ :: tr' => dispatched tr'
  end.

(** The messages sent to the model, in order: one per streaming pass. *)
Fixpoint sent (tr : list Event) : list (list Part) :=
  match tr with
  | [] => []
  | SendMessage msg _ :: tr' => msg :: sent tr'
  | _ :: tr' => sent tr'
  end.

(** What the stream loop writes for one chunk, and for a run of chunks. *)
Definition shown (resp : GenerateContentResponse) : list Event :=
  match getResponseText resp with
  | Some textPart => if Js.truthy textPart then [Stdout textPart] else []
  | None => []
  end.

Definition shownAll (resps : list GenerateContentResponse) : list Event :=
  flat_map shown resps.

(** The function calls one chunk carries, and those of a run of chunks. *)
Definition requested (resp : GenerateContentResponse) : list FunctionCall :=
  match functionCalls resp with
  | Some fcs => fcs
  | None => []
  end.

Definition requestedAll (resps : list GenerateContentResponse)
    : list FunctionCall :=
  flat_map requested resps.

(** [Answered env promptId ts ms fcs l]: with the dispatcher in state [ts]
    and the clock at [ms], the calls [fcs] are dispatched one after the
    other, each in the state its predecessor left the dispatcher in; [l]
    pairs, call by call, the request made with the response obtained. *)
Inductive Answered {Client Tools : Type} (env : Env Client Tools)
    (promptId : string)
    : Tools -> N -> list FunctionCall
      -> list (ToolCallRequestInfo * ToolCallResponseInfo) -> Prop :=
| Answered_nil :
    forall (ts : Tools) (ms : N), Answered env promptId ts ms [] []
| Answered_cons :
    forall (ts ts1 : Tools) (ms : N) (fc : FunctionCall)
           (fcs : list FunctionCall) (run : ToolRun)
           (resp : ToolCallResponseInfo)
           (l : list (ToolCallRequestInfo * ToolCallResponseInfo)),
      executeToolCall env ts (requestFor promptId fc ms) = (run, ts1) ->
      outcome run = inr resp ->
      Answered env promptId ts1 (ms + elapsed run)%N fcs l ->
      Answered env promptId ts ms (fc :: fcs)
        ((requestFor promptId fc ms, resp) :: l).

(** The world a loop over the calls ends in, whichever way it ends. *)
Definition worldOf {Client Tools A : Type}
    (r : Abrupt * World Client Tools + World Client Tools * A)
    : World Client Tools :=
  match r with
  | inl (_, w) => w
  | inr (w, _) => w
  end.

(** An event that is neither a message to the model nor the telemetry
    shutdown. *)
Definition isQuiet (e : Event) : bool :=
  match e with
  | SendMessage _ _ => false
  | ShutdownTelemetry => false
  | _ => true
  end.

(** How many times telemetry was shut down. *)
Fixpoint shutdowns (tr : list Event) : nat :=
  match tr with
  | [] => O
  | ShutdownTelemetry :: tr' => S (shutdowns tr')
  | _ :: tr' => shutdowns tr'
  end.

(** What was written to standard error, in order. *)
Fixpoint complaints (tr : list Event) : list string :=
  match tr with
  | [] => []
  | Stderr s :: tr' => s :: complaints tr'
  | _ :: tr' => complaints tr'
  end.

(** An event that carries the prompt id [promptId] wherever it carries
    one, and that is no client-initiated request. *)
Definition ofPrompt (promptId : string) (e : Event) : bool :=
  match e with
  | SendMessage _ p => String.eqb p promptId
  | Dispatch request =>
      String.eqb (prompt_id request) promptId
      && negb (isClientInitiated request)
  | _ => true
  end.

(** ** Scripted environments

    A model client that counts the streaming passes it served and answers
    pass [n] with [stream n]; a dispatcher without state that answers a
    request with [run]; a clock shown as its decimal reading. *)

Definition scriptedEnv (maxTurns : Z) (stream : nat -> ResponseStream)
    (run : ToolCallRequestInfo -> ToolRun) (aborted : Z -> nat -> bool)
    : Env nat unit :=
  {| getMaxSessionTurns := maxTurns;
     sendMessageStream := fun served _ _ => (stream served, S served);
     executeToolCall := fun _ request => (run request, tt);
     signalAborted := aborted;
     toLocaleTimeString := Js.decimal;
     parseAndFormatApiError := fun err => err;
     isTelemetrySdkInitialized := false |}.

Definition freshWorld (ms : N) : World nat unit :=
  {| trace := []; now := ms; client := O; tools := tt |}.

Definition neverAborted : Z -> nat -> bool := fun _ _ => false.

Definition responseWith (ps : list Part) (cands : list Candidate)
    (r : option string) (fcs : option (list FunctionCall))
    : GenerateContentResponse :=
  {| candidates := Some ({| content := Some {| role := r; parts := Some ps |} |}
                           :: cands);
     functionCalls := fcs |}.

(** A chunk that shows [s]. *)
Definition textChunk (s : string) : GenerateContentResponse :=
  responseWith [asTextPart s] [] (Some "model") None.

(** A chunk that asks for the calls [fcs] and has no text. *)
Definition callChunk (fcs : list FunctionCall) : GenerateContentResponse :=
  responseWith [ {| text := None; thought := None;
                    payload := Some "functionCall" |} ] [] (Some "model")
    (Some fcs).

Definition callOf (fcName : string) (a : Args) : FunctionCall :=
  {| id := None; name := fcName; args := Some a |}.

Definition succeedWith (display : string) (part : string) (ms : N) : ToolRun :=
  {| outcome := inr {| error := None;
                       resultDisplay := Some (RDString display);
                       responseParts := Some (PLOne (PUString part)) |};
     elapsed := ms |}.

Definition failWith (msg : string) (part : string) (ms : N) : ToolRun :=
  {| outcome := inr {| error := Some {| message := msg |};
                       resultDisplay := None;
                       responseParts := Some (PLOne (PUString part)) |};
     elapsed := ms |}.

(** * Properties *)

(** ** The response text extractor *)

(** C7: when the first part of the first candidate is a thought,
    [getResponseText] returns null whatever the other parts (and other
    candidates) carry; and the test looks at index 0 only: the same thought
    part placed behind a first part that is not a thought does not suppress
    anything, its text is concatenated like any other. *)
Theorem getResponseText_thought_at_index_0 :
  forall (thoughtPart : Part) (rest : list Part) (cands : list Candidate)
         (r : option string) (fcs : option (list FunctionCall)),
    truthyFlag (thought thoughtPart) = true ->
    getResponseText (responseWith (thoughtPart :: rest) cands r fcs) = None
    /\ forall p0 : Part,
         truthyFlag (thought p0) = false ->
         getResponseText (responseWith (p0 :: thoughtPart :: rest) cands r fcs)
         = Some (Js.join (truthyTexts (p0 :: thoughtPart :: rest))).
Proof.
  intros thoughtPart rest cands r fcs Hth. split.
  - unfold getResponseText, responseWith; cbn. now rewrite Hth.
  - intros p0 Hp0. unfold getResponseText, responseWith; cbn [candidates content parts].
    now rewrite Hp0.
Qed.

Lemma getResponseText_thought_at_index_0_witness :
  getResponseText
    (responseWith
       [ {| text := Some "secret"; thought := Some true; payload := None |};
         asTextPart "B" ] [] (Some "model") None) = None
  /\ getResponseText
       (responseWith
          [ asTextPart "A";
            {| text := Some "secret"; thought := Some true; payload := None |};
            asTextPart "B" ] [] (Some "model") None) = Some "AsecretB".
Proof.
  destruct (getResponseText_thought_at_index_0
              {| text := Some "secret"; thought := Some true; payload := None |}
              [asTextPart "B"] [] (Some "model") None eq_refl) as [H1 H2].
  split.
  - exact H1.
  - exact (H2 (asTextPart "A") eq_refl).
Defined.

Lemma truthyTexts_none :
  forall ps : list Part,
    (forall q, In q ps -> truthyText (text q) = false) ->
    truthyTexts ps = [].
Proof.
  induction ps as [|p ps IH]; intros Hall; [reflexivity|].
  cbn [truthyTexts].
  pose proof (Hall p (or_introl eq_refl)) as Hp.
  unfold truthyText in Hp.
  destruct (text p) as [s|].
  - rewrite Hp. apply IH. intros q Hq. apply Hall. now right.
  - apply IH. intros q Hq. apply Hall. now right.
Qed.

(** C9: a response whose first candidate has a non-empty list of parts, the
    first of which is not a thought, and none of which has a truthy [text],
    makes [getResponseText] return the empty string, not null; the stream
    loop takes that empty string as nothing to show: it writes nothing for
    the chunk and goes on with the chunk's function calls accumulated. *)
Theorem getResponseText_empty_string_not_null :
  forall (resp : GenerateContentResponse) (cand : Candidate)
         (cands : list Candidate) (c : Content) (p : Part) (ps : list Part),
    candidates resp = Some (cand :: cands) ->
    content cand = Some c ->
    parts c = Some (p :: ps) ->
    truthyFlag (thought p) = false ->
    (forall q, In q (p :: ps) -> truthyText (text q) = false) ->
    getResponseText resp = Some EmptyString
    /\ forall (Client Tools : Type) (env : Env Client Tools) (t : Z) (k : nat)
              (rest : list GenerateContentResponse) (w : World Client Tools)
              (calls : list FunctionCall),
         signalAborted env t k = false ->
         consumeStream env t k (resp :: rest) w calls
         = consumeStream env t (S k) rest w
             (match functionCalls resp with
              | Some fcs => (calls ++ fcs)%list
              | None => calls
              end).
Proof.
  intros resp cand cands c p ps Hc Hcont Hparts Hth Hall.
  assert (Htext : getResponseText resp = Some EmptyString).
  { unfold getResponseText. rewrite Hc, Hcont, Hparts, Hth.
    now rewrite (truthyTexts_none (p :: ps) Hall). }
  split; [exact Htext|].
  intros Client Tools env t k rest w calls Hsig.
  cbn [consumeStream]. rewrite Hsig, Htext. reflexivity.
Qed.

Lemma getResponseText_empty_string_not_null_witness :
  getResponseText (callChunk [callOf "ls" []]) = Some EmptyString
  /\ consumeStream (scriptedEnv 0 (fun _ => mkStream [] None)
                      (fun _ => succeedWith "ok" "done" 1) neverAborted)
       1 0 [callChunk [callOf "ls" []]] (freshWorld 1000) []
     = inr (freshWorld 1000, [callOf "ls" []]).
Proof.
  destruct (getResponseText_empty_string_not_null
              (callChunk [callOf "ls" []])
              (mkCandidate
                 (Some (mkContent (Some "model")
                          (Some [ mkPart None None (Some "functionCall") ]))))
              [] (mkContent (Some "model")
                    (Some [ mkPart None None (Some "functionCall") ]))
              (mkPart None None (Some "functionCall")) []
              eq_refl eq_refl eq_refl eq_refl) as [H1 H2].
  - intros q [<- | []]. reflexivity.
  - split; [exact H1|].
    rewrite (H2 nat unit
               (scriptedEnv 0 (fun _ => mkStream [] None)
                  (fun _ => succeedWith "ok" "done" 1) neverAborted)
               1%Z O [] (freshWorld 1000) [] eq_refl).
    reflexivity.
Defined.

(** ** The observability reporter *)

Lemma trim_truthy_nonempty :
  forall s : string, Js.truthy (Js.trim s) = true -> Js.truthy s = true.
Proof. intros [|a s] H; [discriminate H | reflexivity]. Qed.

(** C6 as amended: for status 'success', a string result whose [trim()] is
    not empty is printed verbatim after the completion banner; a file diff
    is printed as its file name and diff body after the banner; in every
    other case (no result, the empty string, a string of white space only,
    an object without [fileDiff]) the 'completed, no output' banner is all
    that is written. *)
Theorem displayToolCallInfo_success :
  forall (timestamp toolName : string) (a : Args) (errorMessage : option string),
    (forall s : string,
        Js.truthy (Js.trim s) = true ->
        displayToolCallInfo timestamp toolName a Success (Some (RDString s))
          errorMessage
        = [ completedBanner timestamp toolName;
            "📋 Result:" ++ Js.LF ++ s ++ Js.LF ])
    /\ (forall fileName fileDiff : string,
           displayToolCallInfo timestamp toolName a Success
             (Some (RDFileDiff fileName fileDiff)) errorMessage
           = [ completedBanner timestamp toolName;
               "📋 File: " ++ fileName ++ Js.LF;
               "📋 Diff:" ++ Js.LF ++ fileDiff ++ Js.LF ])
    /\ (forall rd : option ToolResultDisplay,
           match rd with
           | None => True
           | Some (RDString s) => Js.truthy (Js.trim s) = false
           | Some (RDFileDiff _ _) => False
           | Some (RDObject _) => True
           end ->
           displayToolCallInfo timestamp toolName a Success rd errorMessage
           = [ noOutputBanner timestamp toolName ]).
Proof.
  intros timestamp toolName a errorMessage. repeat split.
  - intros s Hs. unfold displayToolCallInfo, truthyDisplay.
    now rewrite (trim_truthy_nonempty s Hs), Hs.
  - intros [[s| |]|] H; cbn in *; try reflexivity; try contradiction.
    rewrite H. now destruct (Js.truthy s).
Qed.

Lemma displayToolCallInfo_success_witness :
  displayToolCallInfo "10:00:00" "ls" [] Success (Some (RDString " a.txt ")) None
  = [ completedBanner "10:00:00" "ls"; "📋 Result:" ++ Js.LF ++ " a.txt " ++ Js.LF ]
  /\ displayToolCallInfo "10:00:00" "ls" [] Success (Some (RDString "  ")) None
     = [ noOutputBanner "10:00:00" "ls" ].
Proof.
  destruct (displayToolCallInfo_success "10:00:00" "ls" [] None)
    as [H1 [_ H3]].
  split.
  - apply (H1 " a.txt "). reflexivity.
  - apply (H3 (Some (RDString "  "))). reflexivity.
Defined.

(** C6 as first stated fails: a string of one space is a non-empty string,
    yet the reporter prints the 'no output' banner for it and not the
    string after the completion banner. *)
Lemma displayToolCallInfo_blank_string_counterexample :
  " " <> EmptyString
  /\ displayToolCallInfo "10:00:00" "ls" [] Success (Some (RDString " ")) None
     = [ noOutputBanner "10:00:00" "ls" ]
  /\ displayToolCallInfo "10:00:00" "ls" [] Success (Some (RDString " ")) None
     <> [ completedBanner "10:00:00" "ls"; "📋 Result:" ++ Js.LF ++ " " ++ Js.LF ].
Proof.
  split; [discriminate|]. split; [reflexivity|]. discriminate.
Qed.

(** ** Startup warnings *)

Import StartupWarnings.

(** C10: the home-directory check never rejects, and answers with the
    'Could not verify the current directory' warning when the real path of
    the workspace or of the home directory cannot be resolved; and, the
    version of the runtime being one that [semver.major] accepts,
    [getUserStartupWarnings] resolves to at most two messages: that of the
    home-directory check first, that of the node-version check second. *)
Theorem homeDirectoryCheck_never_raises :
  forall (realpath : string -> Settled string) (homedir : Settled string)
         (nodeVersion : string) (semverMajor : string -> Settled N),
    (forall workspaceRoot : string,
        exists h : option string,
          check (homeDirectoryCheck realpath homedir) workspaceRoot = Resolved h
          /\ (realpath workspaceRoot = Rejected
              \/ homedir = Rejected
              \/ (exists home, homedir = Resolved home
                               /\ realpath home = Rejected) ->
              h = Some fileSystemWarning))
    /\ forall major : N,
         semverMajor nodeVersion = Resolved major ->
         forall workspaceRoot : string,
         exists h n : option string,
           check (homeDirectoryCheck realpath homedir) workspaceRoot = Resolved h
           /\ check (nodeVersionCheck nodeVersion semverMajor) workspaceRoot
              = Resolved n
           /\ getUserStartupWarnings realpath homedir nodeVersion semverMajor
                workspaceRoot
              = Resolved (nonNull [h; n])
           /\ (length (nonNull [h; n]) <= 2)%nat.
Proof.
  intros realpath homedir nodeVersion semverMajor.
  assert (Hhome : forall workspaceRoot : string,
             exists h : option string,
               check (homeDirectoryCheck realpath homedir) workspaceRoot
               = Resolved h
               /\ (realpath workspaceRoot = Rejected
                   \/ homedir = Rejected
                   \/ (exists home, homedir = Resolved home
                                    /\ realpath home = Rejected) ->
                   h = Some fileSystemWarning)).
  { intros workspaceRoot. cbn [check homeDirectoryCheck].
    destruct homedir as [home|].
    - cbn [promiseAll].
      destruct (realpath workspaceRoot) as [wr|] eqn:Ew;
        destruct (realpath home) as [hr|] eqn:Eh.
      + destruct (String.eqb wr hr); eexists; (split; [reflexivity|]);
          intros [H | [H | [home' [H1 H2]]]]; try discriminate;
          injection H1 as <-; congruence.
      + eexists; split; reflexivity.
      + eexists; split; reflexivity.
      + eexists; split; reflexivity.
    - eexists; split; reflexivity. }
  split; [exact Hhome|].
  intros major Hmajor workspaceRoot.
  destruct (Hhome workspaceRoot) as [h [Hh _]].
  assert (Hnode : exists n,
             check (nodeVersionCheck nodeVersion semverMajor) workspaceRoot
             = Resolved n).
  { cbn [check nodeVersionCheck]. rewrite Hmajor.
    destruct (major <? minMajor)%N; eexists; reflexivity. }
  destruct Hnode as [n Hn].
  exists h, n. repeat split; try assumption.
  - unfold getUserStartupWarnings, WARNING_CHECKS.
    cbn [map promiseAll]. rewrite Hh, Hn. reflexivity.
  - destruct h, n; cbn; lia.
Qed.

Lemma homeDirectoryCheck_never_raises_witness :
  check (homeDirectoryCheck (fun _ => Rejected) (Resolved "/home/u")) "/work"
  = Resolved (Some fileSystemWarning)
  /\ getUserStartupWarnings (fun _ => Rejected) (Resolved "/home/u") "18.19.0"
       (fun _ => Resolved 18%N) "/work"
     = Resolved
         [ fileSystemWarning;
           "You are using Node.js v18.19.0. Gemini CLI requires Node.js 20 or higher for best results." ].
Proof.
  destruct (homeDirectoryCheck_never_raises (fun _ => Rejected)
              (Resolved "/home/u") "18.19.0" (fun _ => Resolved 18%N))
    as [H1 H2].
  split.
  - destruct (H1 "/work") as [h [Hh Hfail]].
    rewrite Hh. f_equal. apply Hfail. left. reflexivity.
  - destruct (H2 18%N eq_refl "/work") as [h [n [Hh [Hn [Hall _]]]]].
    rewrite Hall.
    cbn in Hh, Hn. injection Hh as <-. injection Hn as <-. reflexivity.
Defined.

(** ** Call identifiers *)

Lemma hasDash_app_dash :
  forall s t : string, Js.hasDash (s ++ String "-" t) = true.
Proof.
  induction s as [|c s IH]; intros t; cbn [append Js.hasDash].
  - reflexivity.
  - rewrite IH. apply orb_true_r.
Qed.

Lemma decimal_no_dash : forall n : N, Js.hasDash (Js.decimal n) = false.
Proof.
  intros n. unfold Js.decimal.
  assert (H : forall d, Js.hasDash (NilEmpty.string_of_uint d) = false).
  { induction d; cbn; auto. }
  destruct (N.to_uint n); try apply H. reflexivity.
Qed.

Lemma decimal_inj : forall n m : N, Js.decimal n = Js.decimal m -> n = m.
Proof.
  intros n m H. apply DecimalN.Unsigned.to_uint_inj.
  assert (Hnn : forall k : N, N.to_uint k <> Decimal.Nil).
  { intros [|p]; [discriminate | apply DecimalPos.Unsigned.to_uint_nonnil]. }
  pose proof (NilZero.usu _ (Hnn n)) as Hn.
  pose proof (NilZero.usu _ (Hnn m)) as Hm.
  unfold Js.decimal in H. rewrite H in Hn. congruence.
Qed.

Lemma split_at_last_dash :
  forall s1 s2 d1 d2 : string,
    Js.hasDash d1 = false -> Js.hasDash d2 = false ->
    s1 ++ String "-" d1 = s2 ++ String "-" d2 ->
    s1 = s2 /\ d1 = d2.
Proof.
  induction s1 as [|a s1 IH]; intros [|b s2] d1 d2 H1 H2 E;
    cbn [append] in E.
  - injection E as ->. now split.
  - injection E as _ E. rewrite E, hasDash_app_dash in H1. discriminate.
  - injection E as _ E. rewrite <- E, hasDash_app_dash in H2. discriminate.
  - injection E as -> E. destruct (IH s2 d1 d2 H1 H2 E) as [-> ->]. now split.
Qed.

(** C5 as amended: the identifiers synthesized for two calls without [id]
    differ whenever the names of the calls differ or the clock readings
    ([Date.now()]) taken at their dispatch differ. *)
Theorem synthesized_callIds_distinct :
  forall (promptId : string) (fc1 fc2 : FunctionCall) (t1 t2 : N),
    id fc1 = None ->
    id fc2 = None ->
    name fc1 <> name fc2 \/ t1 <> t2 ->
    callId (requestFor promptId fc1 t1) <> callId (requestFor promptId fc2 t2).
Proof.
  intros promptId fc1 fc2 t1 t2 H1 H2 Hdiff E.
  unfold requestFor in E; cbn [callId] in E. rewrite H1, H2 in E.
  unfold synthesizeCallId in E.
  apply split_at_last_dash in E; try apply decimal_no_dash.
  destruct E as [En Et]. apply decimal_inj in Et.
  destruct Hdiff as [Hn | Ht]; contradiction.
Qed.

Lemma synthesized_callIds_distinct_witness :
  callId (requestFor "p" (callOf "read" []) 1000)
  <> callId (requestFor "p" (callOf "read" []) 1001).
Proof.
  apply (synthesized_callIds_distinct "p" (callOf "read" []) (callOf "read" [])
           1000 1001 eq_refl eq_refl).
  right. discriminate.
Defined.

(** C5 as first stated fails: two different calls to the same tool, both
    without [id], the first of which is answered within the millisecond,
    are dispatched under one and the same identifier. *)
Lemma synthesized_callId_collision_counterexample :
  let fc1 := callOf "read" [("path", AString "/a")] in
  let fc2 := callOf "read" [("path", AString "/b")] in
  let env := scriptedEnv 0 (fun _ => mkStream [callChunk [fc1; fc2]] None)
               (fun _ => succeedWith "ok" "done" 0) neverAborted in
  fc1 <> fc2 /\ id fc1 = None /\ id fc2 = None
  /\ exists w ps,
       dispatchCalls env "p" [fc1; fc2] (freshWorld 1000) [] = inr (w, ps)
       /\ map callId (dispatched (trace w)) = ["read-1000"; "read-1000"].
Proof.
  cbv zeta. split; [discriminate|]. split; [reflexivity|]. split; [reflexivity|].
  eexists. eexists. split; [vm_compute; reflexivity|]. reflexivity.
Qed.

(** ** The turn loop *)

Lemma dispatched_app :
  forall tr1 tr2 : list Event,
    dispatched (tr1 ++ tr2) = (dispatched tr1 ++ dispatched tr2)%list.
Proof.
  induction tr1 as [|e tr1 IH]; intros tr2; [reflexivity|].
  destruct e; cbn; rewrite IH; reflexivity.
Qed.

Lemma sent_app :
  forall tr1 tr2 : list Event, sent (tr1 ++ tr2) = (sent tr1 ++ sent tr2)%list.
Proof.
  induction tr1 as [|e tr1 IH]; intros tr2; [reflexivity|].
  destruct e; cbn; rewrite IH; reflexivity.
Qed.

Lemma dispatched_stdout :
  forall ss : list string, dispatched (map Stdout ss) = [].
Proof. induction ss; cbn; auto. Qed.

Lemma sent_stdout : forall ss : list string, sent (map Stdout ss) = [].
Proof. induction ss; cbn; auto. Qed.

Lemma dispatched_shownAll :
  forall resps : list GenerateContentResponse, dispatched (shownAll resps) = [].
Proof.
  induction resps as [|r resps IH]; [reflexivity|].
  unfold shownAll in *. cbn [flat_map]. rewrite dispatched_app, IH.
  unfold shown. destruct (getResponseText r) as [s|]; [|reflexivity].
  destruct (Js.truthy s); reflexivity.
Qed.

Lemma sent_shownAll :
  forall resps : list GenerateContentResponse, sent (shownAll resps) = [].
Proof.
  induction resps as [|r resps IH]; [reflexivity|].
  unfold shownAll in *. cbn [flat_map]. rewrite sent_app, IH.
  unfold shown. destruct (getResponseText r) as [s|]; [|reflexivity].
  destruct (Js.truthy s); reflexivity.
Qed.

Section DriverFacts.

Context {Client Tools : Type}.
Variable env : Env Client Tools.

Lemma emit_nil : forall w : World Client Tools, emit [] w = w.
Proof. intros [tr ms c ts]. unfold emit; cbn. now rewrite app_nil_r. Qed.

Lemma emit_emit :
  forall (es1 es2 : list Event) (w : World Client Tools),
    emit es2 (emit es1 w) = emit (es1 ++ es2) w.
Proof. intros es1 es2 w. unfold emit; cbn. now rewrite app_assoc. Qed.

Lemma consumeStream_step_clear :
  forall t k resp rest (w : World Client Tools) calls,
    signalAborted env t k = false ->
    consumeStream env t k (resp :: rest) w calls
    = consumeStream env t (S k) rest (emit (shown resp) w)
        (calls ++ requested resp).
Proof.
  intros t k resp rest w calls Hsig. cbn [consumeStream]. rewrite Hsig.
  unfold shown, requested.
  destruct (getResponseText resp) as [s|];
    [destruct (Js.truthy s)|]; rewrite ?emit_nil;
    destruct (functionCalls resp); rewrite ?app_nil_r; reflexivity.
Qed.

(** While the signal stays clear, the chunks are processed one after the
    other: their text is written, their calls are accumulated. *)
Lemma consumeStream_app_clear :
  forall t pre rest k (w : World Client Tools) calls,
    (forall j, (j < length pre)%nat -> signalAborted env t (k + j) = false) ->
    consumeStream env t k (pre ++ rest) w calls
    = consumeStream env t (k + length pre) rest (emit (shownAll pre) w)
        (calls ++ requestedAll pre).
Proof.
  intros t pre rest. induction pre as [|resp pre IH]; intros k w calls Hclear.
  - cbn. now rewrite emit_nil, app_nil_r, Nat.add_0_r.
  - cbn [app]. rewrite consumeStream_step_clear.
    + rewrite IH.
      * unfold shownAll, requestedAll. cbn [flat_map length].
        rewrite emit_emit, <- app_assoc. f_equal. lia.
      * intros j Hj. replace (S k + j)%nat with (k + S j)%nat by lia.
        apply Hclear. cbn. lia.
    + replace k with (k + 0)%nat by lia. apply Hclear. cbn. lia.
Qed.

Lemma consumeStream_clear :
  forall t items k (w : World Client Tools) calls,
    (forall j, (j < length items)%nat -> signalAborted env t (k + j) = false) ->
    consumeStream env t k items w calls
    = inr (emit (shownAll items) w, (calls ++ requestedAll items)%list).
Proof.
  intros t items k w calls Hclear.
  rewrite <- (app_nil_r items) at 1.
  now rewrite consumeStream_app_clear.
Qed.

Lemma dispatchCalls_app :
  forall promptId fcs1 fcs2 (w : World Client Tools) ps,
    dispatchCalls env promptId (fcs1 ++ fcs2) w ps
    = match dispatchCalls env promptId fcs1 w ps with
      | inl stop => inl stop
      | inr (w1, ps1) => dispatchCalls env promptId fcs2 w1 ps1
      end.
Proof.
  intros promptId fcs1 fcs2. induction fcs1 as [|fc fcs1 IH]; intros w ps.
  - reflexivity.
  - cbn [app dispatchCalls].
    destruct (dispatchCall env promptId fc w ps) as [stop|[w1 ps1]];
      [reflexivity | apply IH].
Qed.

End DriverFacts.

(** C1: a tool call whose response carries an error with "not found in
    registry" in its message does not end the process.  The error is
    reported (an 'error' observability event, then a line on standard
    error), the parts of the response are appended to the result parts, the
    loop over the accumulated calls goes on with the calls that remain, and
    once these are through the iteration ends by handing the result parts,
    as a user-role turn, to the next iteration. *)
Theorem tool_not_found_is_recoverable :
  forall (Client Tools : Type) (env : Env Client Tools) (promptId : string)
         (turnCount1 : Z) (pre : list FunctionCall) (fc : FunctionCall)
         (rest : list FunctionCall) (w0 w : World Client Tools)
         (ps : list Part) (run : ToolRun) (tools1 : Tools)
         (toolResponse : ToolCallResponseInfo) (e : ToolError),
    dispatchCalls env promptId pre w0 [] = inr (w, ps) ->
    executeToolCall env (tools w) (requestFor promptId fc (now w))
    = (run, tools1) ->
    outcome run = inr toolResponse ->
    error toolResponse = Some e ->
    Js.includes "not found in registry" (message e) = true ->
    exists w' : World Client Tools,
      let errorMessage :=
        match resultDisplay toolResponse with
        | Some (RDString s) => s
        | _ => message e
        end in
      let ps' := (ps ++ normalizeParts (responseParts toolResponse))%list in
      trace w'
      = (trace w
         ++ display env w (name fc) (argsOf fc) Start None None
         ++ [Dispatch (requestFor promptId fc (now w))]
         ++ display env w' (name fc) (argsOf fc) Error None (Some errorMessage)
         ++ [Stderr ("Error executing tool " ++ name fc ++ ": "
                     ++ displayOrMessage (resultDisplay toolResponse) e)])%list
      /\ now w' = (now w + elapsed run)%N
      /\ tools w' = tools1
      /\ dispatchCall env promptId fc w ps = inr (w', ps')
      /\ dispatchCalls env promptId (pre ++ fc :: rest) w0 []
         = dispatchCalls env promptId rest w' ps'
      /\ forall (w'' : World Client Tools) (ps'' : list Part),
           dispatchCalls env promptId rest w' ps' = inr (w'', ps'') ->
           afterStream env promptId turnCount1 (pre ++ fc :: rest) w0
           = inr {| world := w''; currentMessages := [userTurn ps''];
                    turnCount := turnCount1 |}.
Proof.
  intros Client Tools env promptId turnCount1 pre fc rest w0 w ps run tools1
    toolResponse e Hpre Hexec Hout Herr Hnf.
  pose (w' :=
    {| trace :=
         (trace w
          ++ display env w (name fc) (argsOf fc) Start None None
          ++ [Dispatch (requestFor promptId fc (now w))]
          ++ map Stdout
               (displayToolCallInfo
                  (toLocaleTimeString env (now w + elapsed run)%N)
                  (name fc) (argsOf fc) Error None
                  (Some match resultDisplay toolResponse with
                        | Some (RDString s) => s
                        | _ => message e
                        end))
          ++ [Stderr ("Error executing tool " ++ name fc ++ ": "
                      ++ displayOrMessage (resultDisplay toolResponse) e)])%list;
       now := (now w + elapsed run)%N;
       client := client w;
       tools := tools1 |}).
  assert (Hcall :
    dispatchCall env promptId fc w ps
    = inr (w', (ps ++ normalizeParts (responseParts toolResponse))%list)).
  { unfold dispatchCall. cbn [emit tools now trace client]. rewrite Hexec.
    rewrite Hout, Herr. unfold notFoundMarker. rewrite Hnf.
    cbn [negb]. unfold emit, errorReport, display, w'.
    cbn [trace now client tools].
    rewrite <- !app_assoc. reflexivity. }
  assert (Hall :
    dispatchCalls env promptId (pre ++ fc :: rest) w0 []
    = dispatchCalls env promptId rest w'
        (ps ++ normalizeParts (responseParts toolResponse))%list).
  { rewrite dispatchCalls_app, Hpre. cbn [dispatchCalls]. now rewrite Hcall. }
  exists w'. cbv zeta.
  split; [reflexivity|]. split; [reflexivity|]. split; [reflexivity|].
  split; [exact Hcall|]. split; [exact Hall|].
  intros w'' ps'' Hrest. unfold afterStream.
  rewrite Hall, Hrest. destruct pre; reflexivity.
Qed.

Lemma tool_not_found_is_recoverable_witness :
  exists st : LoopState nat unit,
    afterStream
      (scriptedEnv 0 (fun _ => mkStream [] None)
         (fun _ => failWith "Tool missing not found in registry." "err" 5)
         neverAborted)
      "p" 1 [callOf "missing" []] (freshWorld 1000)
    = inr st
    /\ currentMessages st = [userTurn [asTextPart "err"]].
Proof.
  destruct (tool_not_found_is_recoverable nat unit
              (scriptedEnv 0 (fun _ => mkStream [] None)
                 (fun _ => failWith "Tool missing not found in registry." "err" 5)
                 neverAborted)
              "p" 1%Z [] (callOf "missing" []) [] (freshWorld 1000)
              (freshWorld 1000) []
              (failWith "Tool missing not found in registry." "err" 5) tt
              {| error := Some {| message := "Tool missing not found in registry." |};
                 resultDisplay := None;
                 responseParts := Some (PLOne (PUString "err")) |}
              {| message := "Tool missing not found in registry." |}
              eq_refl eq_refl eq_refl eq_refl eq_refl)
    as [w' [_ [_ [_ [_ [_ Hturn]]]]]].
  eexists. split.
  - apply Hturn. reflexivity.
  - reflexivity.
Defined.

(** C2: a tool call whose response carries an error without "not found in
    registry" in its message ends the process with status 1 right after the
    error is reported (the 'error' observability event, then the line on
    standard error): the response parts are not collected, none of the calls
    accumulated behind it is dispatched, and no further turn is taken. *)
Theorem other_tool_error_is_fatal :
  forall (Client Tools : Type) (env : Env Client Tools) (promptId : string)
         (turnCount1 : Z) (pre : list FunctionCall) (fc : FunctionCall)
         (rest : list FunctionCall) (w0 w : World Client Tools)
         (ps : list Part) (run : ToolRun) (tools1 : Tools)
         (toolResponse : ToolCallResponseInfo) (e : ToolError),
    dispatchCalls env promptId pre w0 [] = inr (w, ps) ->
    executeToolCall env (tools w) (requestFor promptId fc (now w))
    = (run, tools1) ->
    outcome run = inr toolResponse ->
    error toolResponse = Some e ->
    Js.includes "not found in registry" (message e) = false ->
    exists w' : World Client Tools,
      let errorMessage :=
        match resultDisplay toolResponse with
        | Some (RDString s) => s
        | _ => message e
        end in
      trace w'
      = (trace w
         ++ display env w (name fc) (argsOf fc) Start None None
         ++ [Dispatch (requestFor promptId fc (now w))]
         ++ display env w' (name fc) (argsOf fc) Error None (Some errorMessage)
         ++ [Stderr ("Error executing tool " ++ name fc ++ ": "
                     ++ displayOrMessage (resultDisplay toolResponse) e)])%list
      /\ dispatched (trace w')
         = (dispatched (trace w) ++ [requestFor promptId fc (now w)])%list
      /\ dispatchCalls env promptId (pre ++ fc :: rest) w0 [] = inl (Exit 1, w')
      /\ afterStream env promptId turnCount1 (pre ++ fc :: rest) w0
         = inl (Exit 1, w')
      /\ (forall (fuel : nat) (st : LoopState Client Tools),
             turn env promptId st
             = afterStream env promptId turnCount1 (pre ++ fc :: rest) w0 ->
             option_map (finish env) (loop env (S fuel) promptId st)
             = Some (Exited 1, w'))
      /\ exitStatus (Exited 1) <> 0%Z.
Proof.
  intros Client Tools env promptId turnCount1 pre fc rest w0 w ps run tools1
    toolResponse e Hpre Hexec Hout Herr Hnf.
  pose (w' :=
    {| trace :=
         (trace w
          ++ display env w (name fc) (argsOf fc) Start None None
          ++ [Dispatch (requestFor promptId fc (now w))]
          ++ map Stdout
               (displayToolCallInfo
                  (toLocaleTimeString env (now w + elapsed run)%N)
                  (name fc) (argsOf fc) Error None
                  (Some match resultDisplay toolResponse with
                        | Some (RDString s) => s
                        | _ => message e
                        end))
          ++ [Stderr ("Error executing tool " ++ name fc ++ ": "
                      ++ displayOrMessage (resultDisplay toolResponse) e)])%list;
       now := (now w + elapsed run)%N;
       client := client w;
       tools := tools1 |}).
  assert (Hcall : dispatchCall env promptId fc w ps = inl (Exit 1, w')).
  { unfold dispatchCall. cbn [emit tools now trace client]. rewrite Hexec.
    rewrite Hout, Herr. unfold notFoundMarker. rewrite Hnf.
    cbn [negb]. unfold emit, errorReport, display, w'.
    cbn [trace now client tools].
    rewrite <- !app_assoc. reflexivity. }
  assert (Hall :
    dispatchCalls env promptId (pre ++ fc :: rest) w0 [] = inl (Exit 1, w')).
  { rewrite dispatchCalls_app, Hpre. cbn [dispatchCalls]. now rewrite Hcall. }
  assert (Hafter :
    afterStream env promptId turnCount1 (pre ++ fc :: rest) w0
    = inl (Exit 1, w')).
  { unfold afterStream. rewrite Hall. destruct pre; reflexivity. }
  exists w'. cbv zeta.
  split; [reflexivity|]. split.
  { unfold w', display. cbn [trace].
    rewrite !dispatched_app, !dispatched_stdout. reflexivity. }
  split; [exact Hall|]. split; [exact Hafter|]. split.
  - intros fuel st Hturn. cbn [loop]. rewrite Hturn, Hafter. reflexivity.
  - discriminate.
Qed.

Lemma other_tool_error_is_fatal_witness :
  exists w' : World nat unit,
    dispatchCalls
      (scriptedEnv 0 (fun _ => mkStream [] None)
         (fun _ => failWith "disk full" "err" 5) neverAborted)
      "p" [callOf "write" []; callOf "read" []] (freshWorld 1000) []
    = inl (Exit 1, w')
    /\ map reqName (dispatched (trace w')) = ["write"].
Proof.
  destruct (other_tool_error_is_fatal nat unit
              (scriptedEnv 0 (fun _ => mkStream [] None)
                 (fun _ => failWith "disk full" "err" 5) neverAborted)
              "p" 1%Z [] (callOf "write" []) [callOf "read" []]
              (freshWorld 1000) (freshWorld 1000) []
              (failWith "disk full" "err" 5) tt
              {| error := Some {| message := "disk full" |};
                 resultDisplay := None;
                 responseParts := Some (PLOne (PUString "err")) |}
              {| message := "disk full" |}
              eq_refl eq_refl eq_refl eq_refl eq_refl)
    as [w' [_ [Hd [Hall _]]]].
  exists w'. split.
  - exact Hall.
  - rewrite Hd. reflexivity.
Defined.

(** What a call that went through has done: one dispatch, no message sent,
    the parts of its response appended. *)
Lemma dispatchCall_inr :
  forall (Client Tools : Type) (env : Env Client Tools) (promptId : string)
         (fc : FunctionCall) (w w1 : World Client Tools) (ps ps1 : list Part),
    dispatchCall env promptId fc w ps = inr (w1, ps1) ->
    exists (run : ToolRun) (resp : ToolCallResponseInfo),
      executeToolCall env (tools w) (requestFor promptId fc (now w))
      = (run, tools w1)
      /\ outcome run = inr resp
      /\ now w1 = (now w + elapsed run)%N
      /\ client w1 = client w
      /\ dispatched (trace w1)
         = (dispatched (trace w) ++ [requestFor promptId fc (now w)])%list
      /\ sent (trace w1) = sent (trace w)
      /\ ps1 = (ps ++ normalizeParts (responseParts resp))%list.
Proof.
  intros Client Tools env promptId fc w w1 ps ps1 H.
  unfold dispatchCall in H. cbn [emit tools now trace client] in H.
  destruct (executeToolCall env (tools w) (requestFor promptId fc (now w)))
    as [run ts1] eqn:Hexec.
  destruct (outcome run) as [err|resp] eqn:Hout; [discriminate H|].
  exists run, resp.
  destruct (error resp) as [e|].
  - destruct (negb (Js.includes notFoundMarker (message e)));
      [discriminate H|].
    injection H as <- <-. unfold emit, errorReport, display.
    cbn [trace now client tools].
    rewrite !dispatched_app, !sent_app, !dispatched_stdout, !sent_stdout.
    cbn [dispatched sent]. rewrite ?app_nil_r.
    repeat split; try reflexivity; assumption.
  - injection H as <- <-. unfold emit, display.
    cbn [trace now client tools].
    rewrite !dispatched_app, !sent_app, !dispatched_stdout, !sent_stdout.
    cbn [dispatched sent]. rewrite ?app_nil_r.
    repeat split; try reflexivity; assumption.
Qed.

Lemma dispatchCalls_inr :
  forall (Client Tools : Type) (env : Env Client Tools) (promptId : string)
         (fcs : list FunctionCall) (w w' : World Client Tools)
         (ps ps' : list Part),
    dispatchCalls env promptId fcs w ps = inr (w', ps') ->
    exists l : list (ToolCallRequestInfo * ToolCallResponseInfo),
      Answered env promptId (tools w) (now w) fcs l
      /\ dispatched (trace w') = (dispatched (trace w) ++ map fst l)%list
      /\ map reqName (map fst l) = map name fcs
      /\ ps' = (ps ++ flat_map
                        (fun rr => normalizeParts (responseParts (snd rr))) l)%list
      /\ sent (trace w') = sent (trace w)
      /\ client w' = client w.
Proof.
  intros Client Tools env promptId fcs.
  induction fcs as [|fc fcs IH]; intros w w' ps ps' H; cbn [dispatchCalls] in H.
  - injection H as <- <-. exists []. cbn. rewrite !app_nil_r.
    repeat split; constructor.
  - destruct (dispatchCall env promptId fc w ps) as [stop|[w1 ps1]] eqn:Hcall;
      [discriminate H|].
    apply dispatchCall_inr in Hcall.
    destruct Hcall as [run [resp [Hexec [Hout [Hnow [Hcl [Hd [Hs Hps]]]]]]]].
    destruct (IH _ _ _ _ H) as [l [Hans [Hd' [Hn [Hps' [Hs' Hcl']]]]]].
    exists ((requestFor promptId fc (now w), resp) :: l).
    split; [|split; [|split; [|split; [|split]]]].
    + econstructor; [exact Hexec | exact Hout |]. rewrite <- Hnow. exact Hans.
    + rewrite Hd', Hd, <- app_assoc. reflexivity.
    + cbn. now rewrite Hn.
    + rewrite Hps', Hps, <- app_assoc. reflexivity.
    + congruence.
    + congruence.
Qed.

(** Every run of the loop body hands exactly one request to the
    dispatcher, however it ends. *)
Lemma dispatchCall_dispatches_once :
  forall (Client Tools : Type) (env : Env Client Tools) (promptId : string)
         (fc : FunctionCall) (w : World Client Tools) (ps : list Part),
    dispatched (trace (worldOf (dispatchCall env promptId fc w ps)))
    = (dispatched (trace w) ++ [requestFor promptId fc (now w)])%list.
Proof.
  intros Client Tools env promptId fc w ps.
  unfold dispatchCall. cbn [emit tools now trace client].
  destruct (executeToolCall env (tools w) (requestFor promptId fc (now w)))
    as [run ts1].
  destruct (outcome run) as [err|resp].
  - cbn [worldOf trace]. unfold display.
    rewrite !dispatched_app, !dispatched_stdout. now rewrite app_nil_r.
  - destruct (error resp) as [e|];
      [destruct (negb (Js.includes notFoundMarker (message e)))|];
      cbn [worldOf]; unfold emit, errorReport, display; cbn [trace];
      rewrite !dispatched_app, !dispatched_stdout; cbn [dispatched];
      now rewrite ?app_nil_r.
Qed.

Lemma dispatchCalls_prefix :
  forall (Client Tools : Type) (env : Env Client Tools) (promptId : string)
         (fcs : list FunctionCall) (w : World Client Tools) (ps : list Part),
  exists (n : nat) (reqs : list ToolCallRequestInfo),
    (n <= length fcs)%nat
    /\ dispatched (trace (worldOf (dispatchCalls env promptId fcs w ps)))
       = (dispatched (trace w) ++ reqs)%list
    /\ map reqName reqs = map name (firstn n fcs)
    /\ map reqArgs reqs = map argsOf (firstn n fcs).
Proof.
  intros Client Tools env promptId fcs.
  induction fcs as [|fc fcs IH]; intros w ps; cbn [dispatchCalls].
  - exists O, []. cbn. rewrite app_nil_r. repeat split; lia.
  - pose proof (dispatchCall_dispatches_once _ _ env promptId fc w ps) as Honce.
    destruct (dispatchCall env promptId fc w ps) as [[stop w1]|[w1 ps1]];
      cbn [worldOf] in Honce.
    + exists 1%nat, [requestFor promptId fc (now w)]. cbn [worldOf].
      repeat split; [cbn; lia | exact Honce].
    + destruct (IH w1 ps1) as [n [reqs [Hn [Hd [Hnames Hargs]]]]].
      exists (S n), (requestFor promptId fc (now w) :: reqs).
      split; [cbn; lia|]. split.
      * rewrite Hd, Honce, <- app_assoc. reflexivity.
      * cbn. now rewrite Hnames, Hargs.
Qed.

(** C8: the dispatcher is invoked on the accumulated calls of a turn in the
    order they were accumulated, one at a time: however the loop over them
    ends, the requests it made are those of the first calls of the list, in
    order; and when it goes through, every call was dispatched, each
    invocation starting where the previous one ended, and the user-role
    turn synthesized for the next iteration holds the response parts of the
    calls in that same order. *)
Theorem dispatch_order_is_arrival_order :
  forall (Client Tools : Type) (env : Env Client Tools) (promptId : string)
         (turnCount1 : Z) (fcs : list FunctionCall) (w : World Client Tools),
    (2 <= length fcs)%nat ->
    (exists (n : nat) (reqs : list ToolCallRequestInfo),
        (n <= length fcs)%nat
        /\ dispatched (trace (worldOf (dispatchCalls env promptId fcs w [])))
           = (dispatched (trace w) ++ reqs)%list
        /\ map reqName reqs = map name (firstn n fcs)
        /\ map reqArgs reqs = map argsOf (firstn n fcs))
    /\ forall (w' : World Client Tools) (ps' : list Part),
         dispatchCalls env promptId fcs w [] = inr (w', ps') ->
         exists l : list (ToolCallRequestInfo * ToolCallResponseInfo),
           Answered env promptId (tools w) (now w) fcs l
           /\ dispatched (trace w') = (dispatched (trace w) ++ map fst l)%list
           /\ map reqName (map fst l) = map name fcs
           /\ map reqArgs (map fst l) = map argsOf fcs
           /\ ps' = flat_map
                      (fun rr => normalizeParts (responseParts (snd rr))) l
           /\ afterStream env promptId turnCount1 fcs w
              = inr {| world := w'; currentMessages := [userTurn ps'];
                       turnCount := turnCount1 |}.
Proof.
  intros Client Tools env promptId turnCount1 fcs w Hlen.
  split; [apply dispatchCalls_prefix|].
  intros w' ps' H.
  destruct (dispatchCalls_inr _ _ env promptId fcs w w' [] ps' H)
    as [l [Hans [Hd [Hn [Hps _]]]]].
  exists l. repeat split; try assumption.
  - clear - Hans. induction Hans; cbn; [reflexivity | now f_equal].
  - unfold afterStream. rewrite H. destruct fcs; [cbn in Hlen; lia | reflexivity].
Qed.

Lemma dispatch_order_is_arrival_order_witness :
  exists (w' : World nat unit),
    dispatchCalls
      (scriptedEnv 0 (fun _ => mkStream [] None)
         (fun request => succeedWith "ok" (reqName request) 3) neverAborted)
      "p" [callOf "first" []; callOf "second" []] (freshWorld 1000) []
    = inr (w', [asTextPart "first"; asTextPart "second"])
    /\ map callId (dispatched (trace w')) = ["first-1000"; "second-1003"].
Proof.
  pose (env := scriptedEnv 0 (fun _ => mkStream [] None)
                 (fun request => succeedWith "ok" (reqName request) 3)
                 neverAborted).
  assert (Hrun : exists w', dispatchCalls env "p"
                   [callOf "first" []; callOf "second" []] (freshWorld 1000) []
                 = inr (w', [asTextPart "first"; asTextPart "second"])).
  { eexists. vm_compute. reflexivity. }
  destruct Hrun as [w' Hrun]. exists w'. split; [exact Hrun|].
  destruct (dispatch_order_is_arrival_order nat unit env "p" 1%Z
              [callOf "first" []; callOf "second" []] (freshWorld 1000)
              (le_n 2))
    as [_ Hthrough].
  destruct (Hthrough w' [asTextPart "first"; asTextPart "second"] Hrun)
    as [l [Hans [Hd _]]].
  rewrite Hd.
  inversion Hans as [|ts ts1 ms fc fcs run resp l1 Hexec Hout Hans1]; subst.
  inversion Hans1 as [|ts' ts1' ms' fc' fcs' run' resp' l2 Hexec' Hout' Hans2];
    subst.
  inversion Hans2; subst.
  cbn in Hexec. injection Hexec as <-.
  cbn in Hexec'. injection Hexec' as <-.
  reflexivity.
Defined.

(** C4 as amended: when the abort signal becomes set after the stream loop
    has processed N chunks of a turn and the stream delivers one more
    chunk, that chunk is dropped unprocessed: the turn ends there, having
    written the text of the first N chunks only, followed by "Operation
    cancelled." on standard error; no call is dispatched, the function
    returns and no further turn is taken. *)
Theorem cancellation_seen_on_next_chunk :
  forall (Client Tools : Type) (env : Env Client Tools) (promptId : string)
         (st : LoopState Client Tools) (responseStream : ResponseStream)
         (client1 : Client) (pre : list GenerateContentResponse)
         (resp : GenerateContentResponse)
         (post : list GenerateContentResponse),
    (0 <? getMaxSessionTurns env)%Z
    && (getMaxSessionTurns env <? turnCount st + 1)%Z = false ->
    sendMessageStream env (client (world st)) (messageOf (currentMessages st))
      promptId = (responseStream, client1) ->
    chunks responseStream = (pre ++ resp :: post)%list ->
    (forall k, (k < length pre)%nat ->
               signalAborted env (turnCount st + 1)%Z k = false) ->
    signalAborted env (turnCount st + 1)%Z (length pre) = true ->
    exists w' : World Client Tools,
      turn env promptId st = inl (Return Cancelled, w')
      /\ trace w'
         = (trace (world st)
            ++ [SendMessage (messageOf (currentMessages st)) promptId]
            ++ shownAll pre
            ++ [Stderr "Operation cancelled."])%list
      /\ dispatched (trace w') = dispatched (trace (world st))
      /\ forall fuel : nat,
           option_map (finish env) (loop env (S fuel) promptId st)
           = Some (Returned Cancelled,
                   if isTelemetrySdkInitialized env
                   then emit [ShutdownTelemetry] w' else w').
Proof.
  intros Client Tools env promptId st responseStream client1 pre resp post
    Hbudget Hsend Hchunks Hclear Hset.
  pose (w' :=
    {| trace :=
         (trace (world st)
          ++ [SendMessage (messageOf (currentMessages st)) promptId]
          ++ shownAll pre
          ++ [Stderr "Operation cancelled."])%list;
       now := now (world st); client := client1;
       tools := tools (world st) |}).
  assert (Hturn : turn env promptId st = inl (Return Cancelled, w')).
  { unfold turn. rewrite Hbudget, Hsend, Hchunks.
    rewrite consumeStream_app_clear by (intros j Hj; now apply Hclear).
    cbn [Nat.add consumeStream]. rewrite Hset.
    unfold emit, w'. cbn [trace now client tools].
    rewrite <- !app_assoc. reflexivity. }
  exists w'. split; [exact Hturn|]. split; [reflexivity|]. split.
  - unfold w'. cbn [trace].
    rewrite !dispatched_app, dispatched_shownAll. cbn. now rewrite app_nil_r.
  - intros fuel. cbn [loop]. rewrite Hturn. reflexivity.
Qed.

Lemma cancellation_seen_on_next_chunk_witness :
  exists w' : World nat unit,
    turn
      (scriptedEnv 0
         (fun _ => mkStream [textChunk "one"; callChunk [callOf "rm" []];
                             textChunk "three"] None)
         (fun _ => succeedWith "ok" "done" 1)
         (fun _ k => Nat.leb 1 k))
      "p" (initialState "hi" (freshWorld 1000))
    = inl (Return Cancelled, w')
    /\ trace w'
       = [ SendMessage [asTextPart "hi"] "p"; Stdout "one";
           Stderr "Operation cancelled." ].
Proof.
  destruct (cancellation_seen_on_next_chunk nat unit
              (scriptedEnv 0
                 (fun _ => mkStream [textChunk "one"; callChunk [callOf "rm" []];
                                     textChunk "three"] None)
                 (fun _ => succeedWith "ok" "done" 1)
                 (fun _ k => Nat.leb 1 k))
              "p" (initialState "hi" (freshWorld 1000))
              (mkStream [textChunk "one"; callChunk [callOf "rm" []];
                         textChunk "three"] None)
              1%nat [textChunk "one"] (callChunk [callOf "rm" []])
              [textChunk "three"] eq_refl eq_refl eq_refl)
    as [w' [Hturn [Htrace _]]].
  - intros k Hk. cbn in Hk. destruct k; [reflexivity | lia].
  - reflexivity.
  - exists w'. split; [exact Hturn | exact Htrace].
Defined.

(** C4 as first stated fails: the signal becomes set once the only chunk of
    the first turn's stream is processed; the stream ends there, nothing
    looks at the signal, and the call that chunk asked for is dispatched.
    Cancellation is seen on the first chunk of the next turn only. *)
Lemma cancellation_after_last_chunk_counterexample :
  let env :=
    scriptedEnv 0
      (fun served =>
         match served with
         | O => mkStream [callChunk [callOf "rm" []]] None
         | S _ => mkStream [textChunk "late"] None
         end)
      (fun _ => succeedWith "ok" "done" 1)
      (fun t k => ((t =? 1)%Z && Nat.leb 1 k) || (2 <=? t)%Z) in
  signalAborted env 1 0 = false
  /\ signalAborted env 1 1 = true
  /\ (exists st : LoopState nat unit,
         turn env "p" (initialState "hi" (freshWorld 1000)) = inr st
         /\ map reqName (dispatched (trace (world st))) = ["rm"])
  /\ exists w : World nat unit,
       runNonInteractive env 2 "hi" "p" (freshWorld 1000)
       = Some (Returned Cancelled, w)
       /\ map reqName (dispatched (trace w)) = ["rm"].
Proof.
  cbv zeta. split; [reflexivity|]. split; [reflexivity|]. split.
  - eexists. split; [vm_compute; reflexivity | reflexivity].
  - eexists. split; [vm_compute; reflexivity | reflexivity].
Qed.

Section TurnBudget.

Context {Client Tools : Type}.
Variable env : Env Client Tools.
Variable promptId : string.

(** The model asks for at least one tool call in every pass, and its
    stream ends without an error. *)
Hypothesis client_always_calls :
  forall (c : Client) (msg : list Part),
    failure (fst (sendMessageStream env c msg promptId)) = None
    /\ requestedAll (chunks (fst (sendMessageStream env c msg promptId)))
       <> [].

(** Nobody cancels. *)
Hypothesis never_aborted : forall (t : Z) (k : nat), signalAborted env t k = false.

(** The dispatcher answers every request, with no other error than
    'not found in registry'. *)
Hypothesis tools_never_fatal :
  forall (ts : Tools) (request : ToolCallRequestInfo),
  exists resp : ToolCallResponseInfo,
    outcome (fst (executeToolCall env ts request)) = inr resp
    /\ forall e : ToolError,
         error resp = Some e ->
         Js.includes "not found in registry" (message e) = true.

Lemma dispatchCalls_goes_through :
  forall (fcs : list FunctionCall) (w : World Client Tools) (ps : list Part),
  exists w' ps', dispatchCalls env promptId fcs w ps = inr (w', ps').
Proof.
  induction fcs as [|fc fcs IH]; intros w ps; cbn [dispatchCalls].
  - eauto.
  - assert (Hcall : exists w1 ps1,
               dispatchCall env promptId fc w ps = inr (w1, ps1)).
    { unfold dispatchCall. cbn [emit tools now trace client].
      destruct (tools_never_fatal (tools w) (requestFor promptId fc (now w)))
        as [resp [Hout Herr]].
      destruct (executeToolCall env (tools w) (requestFor promptId fc (now w)))
        as [run ts1].
      cbn [fst] in Hout. rewrite Hout.
      destruct (error resp) as [e|].
      - unfold notFoundMarker. rewrite (Herr e eq_refl). cbn [negb]. eauto.
      - eauto. }
    destruct Hcall as [w1 [ps1 Hcall]]. rewrite Hcall. apply IH.
Qed.

(** A pass taken while the budget lasts ends by going round again. *)
Lemma turn_within_budget :
  forall st : LoopState Client Tools,
    (0 <? getMaxSessionTurns env)%Z
    && (getMaxSessionTurns env <? turnCount st + 1)%Z = false ->
    exists st' : LoopState Client Tools,
      turn env promptId st = inr st'
      /\ turnCount st' = (turnCount st + 1)%Z
      /\ sent (trace (world st'))
         = (sent (trace (world st)) ++ [messageOf (currentMessages st)])%list
      /\ (length (dispatched (trace (world st)))
          < length (dispatched (trace (world st'))))%nat.
Proof.
  intros st Hbudget. unfold turn. rewrite Hbudget.
  destruct (client_always_calls (client (world st))
              (messageOf (currentMessages st))) as [Hfail Hreq].
  destruct (sendMessageStream env (client (world st))
              (messageOf (currentMessages st)) promptId)
    as [responseStream client1].
  cbn [fst] in Hfail, Hreq.
  rewrite consumeStream_clear by (intros; apply never_aborted).
  rewrite Hfail. cbn [app]. unfold afterStream.
  destruct (requestedAll (chunks responseStream)) as [|fc fcs] eqn:Hcalls;
    [contradiction|].
  destruct (dispatchCalls_goes_through (fc :: fcs)
              (emit (shownAll (chunks responseStream))
                 {| trace := (trace (world st)
                              ++ [SendMessage (messageOf (currentMessages st))
                                    promptId])%list;
                    now := now (world st); client := client1;
                    tools := tools (world st) |}) [])
    as [w3 [ps3 Hdisp]].
  rewrite Hdisp. eexists. split; [reflexivity|]. cbn [turnCount world].
  split; [reflexivity|].
  apply dispatchCalls_inr in Hdisp.
  destruct Hdisp as [l [Hans [Hd [Hn [_ [Hs _]]]]]].
  split.
  - rewrite Hs. unfold emit. cbn [trace].
    rewrite !sent_app, sent_shownAll. cbn. now rewrite app_nil_r.
  - rewrite Hd. unfold emit. cbn [trace].
    rewrite !dispatched_app, dispatched_shownAll. cbn [dispatched].
    rewrite !app_nil_r, length_app.
    assert (length (map fst l) = S (length fcs)).
    { rewrite <- (length_map reqName), Hn, length_map. reflexivity. }
    lia.
Qed.

(** With [n] passes left in a budget of [getMaxSessionTurns env], the loop
    takes exactly [n] passes and stops on the check of the next one. *)
Lemma loop_uses_up_budget :
  forall (n fuel : nat) (st : LoopState Client Tools),
    (0 < getMaxSessionTurns env)%Z ->
    (turnCount st + Z.of_nat n)%Z = getMaxSessionTurns env ->
    (n < fuel)%nat ->
    exists w : World Client Tools,
      loop env fuel promptId st
      = Some (Return TurnLimitReached, emit [Stderr maxTurnsMessage] w)
      /\ length (sent (trace w)) = (length (sent (trace (world st))) + n)%nat
      /\ (length (dispatched (trace (world st))) + n
          <= length (dispatched (trace w)))%nat.
Proof.
  induction n as [|n IH]; intros fuel st Hpos Hcount Hfuel;
    (destruct fuel as [|fuel]; [lia|]); cbn [loop].
  - exists (world st). unfold turn.
    replace ((0 <? getMaxSessionTurns env)%Z
             && (getMaxSessionTurns env <? turnCount st + 1)%Z) with true
      by (symmetry; apply andb_true_iff; split;
          [apply Z.ltb_lt | apply Z.ltb_lt]; lia).
    split; [reflexivity|]. split; lia.
  - destruct (turn_within_budget st) as [st' [Hturn [Htc [Hsent Hdisp]]]].
    { apply andb_false_iff. right. apply Z.ltb_ge. lia. }
    rewrite Hturn.
    destruct (IH fuel st' Hpos) as [w [Hloop [Hs Hd]]]; [lia | lia |].
    exists w. split; [exact Hloop|]. split.
    + rewrite Hs, Hsent, length_app. cbn. lia.
    + lia.
Qed.

End TurnBudget.

(** C3: with a budget of N > 0 turns, a model that asks for at least one tool
    call in every pass (nobody cancelling, the dispatcher answering every
    call without a fatal error) is sent exactly N messages, one per
    streaming pass; the check at the start of iteration N + 1 then writes
    the budget message to standard error and the function returns, with
    nothing sent to the model and nothing dispatched after that message:
    the exit status is 0. *)
Theorem turn_budget_stops_after_N_passes :
  forall (Client Tools : Type) (env : Env Client Tools)
         (input promptId : string) (w0 : World Client Tools) (fuel : nat),
    (0 < getMaxSessionTurns env)%Z ->
    (forall (c : Client) (msg : list Part),
        failure (fst (sendMessageStream env c msg promptId)) = None
        /\ requestedAll (chunks (fst (sendMessageStream env c msg promptId)))
           <> []) ->
    (forall (t : Z) (k : nat), signalAborted env t k = false) ->
    (forall (ts : Tools) (request : ToolCallRequestInfo),
      exists resp : ToolCallResponseInfo,
        outcome (fst (executeToolCall env ts request)) = inr resp
        /\ forall e : ToolError,
             error resp = Some e ->
             Js.includes "not found in registry" (message e) = true) ->
    (Z.to_nat (getMaxSessionTurns env) < fuel)%nat ->
    exists w : World Client Tools,
      runNonInteractive env fuel input promptId w0
      = Some (Returned TurnLimitReached,
              if isTelemetrySdkInitialized env
              then emit [Stderr maxTurnsMessage; ShutdownTelemetry] w
              else emit [Stderr maxTurnsMessage] w)
      /\ length (sent (trace w))
         = (length (sent (trace w0)) + Z.to_nat (getMaxSessionTurns env))%nat
      /\ (length (dispatched (trace w0)) + Z.to_nat (getMaxSessionTurns env)
          <= length (dispatched (trace w)))%nat
      /\ exitStatus (Returned TurnLimitReached) = 0%Z.
Proof.
  intros Client Tools env input promptId w0 fuel Hpos Hclient Hsig Htools Hfuel.
  destruct (loop_uses_up_budget env promptId Hclient Hsig Htools
              (Z.to_nat (getMaxSessionTurns env)) fuel
              (initialState input w0) Hpos)
    as [w [Hloop [Hs Hd]]].
  - cbn [initialState turnCount]. lia.
  - exact Hfuel.
  - exists w. unfold runNonInteractive. rewrite Hloop. cbn [option_map finish].
    split.
    + destruct (isTelemetrySdkInitialized env); [rewrite emit_emit|]; reflexivity.
    + repeat split; assumption.
Qed.

Lemma turn_budget_stops_after_N_passes_witness :
  exists w : World nat unit,
    runNonInteractive
      (scriptedEnv 2 (fun _ => mkStream [callChunk [callOf "ls" []]] None)
         (fun _ => succeedWith "ok" "done" 1) neverAborted)
      3 "hi" "p" (freshWorld 1000)
    = Some (Returned TurnLimitReached, emit [Stderr maxTurnsMessage] w)
    /\ length (sent (trace w)) = 2%nat
    /\ (2 <= length (dispatched (trace w)))%nat.
Proof.
  destruct (turn_budget_stops_after_N_passes nat unit
              (scriptedEnv 2 (fun _ => mkStream [callChunk [callOf "ls" []]] None)
                 (fun _ => succeedWith "ok" "done" 1) neverAborted)
              "hi" "p" (freshWorld 1000) 3%nat)
    as [w [Hrun [Hs [Hd _]]]].
  - reflexivity.
  - intros c msg. split; [reflexivity | discriminate].
  - intros t k. reflexivity.
  - intros ts request. eexists. split; [reflexivity|].
    intros e He. discriminate He.
  - cbn. lia.
  - exists w. split; [exact Hrun|]. split; [exact Hs | exact Hd].
Defined.

(** * Further properties of the driver *)

Lemma shutdowns_app :
  forall tr1 tr2 : list Event,
    shutdowns (tr1 ++ tr2) = (shutdowns tr1 + shutdowns tr2)%nat.
Proof.
  induction tr1 as [|e tr1 IH]; intros tr2; [reflexivity|].
  destruct e; cbn; rewrite IH; reflexivity.
Qed.

Lemma complaints_app :
  forall tr1 tr2 : list Event,
    complaints (tr1 ++ tr2) = (complaints tr1 ++ complaints tr2)%list.
Proof.
  induction tr1 as [|e tr1 IH]; intros tr2; [reflexivity|].
  destruct e; cbn; rewrite IH; reflexivity.
Qed.

Lemma quiet_stdout :
  forall ss : list string, forallb isQuiet (map Stdout ss) = true.
Proof. induction ss; cbn; auto. Qed.

Lemma quiet_shownAll :
  forall resps : list GenerateContentResponse,
    forallb isQuiet (shownAll resps) = true.
Proof.
  induction resps as [|r resps IH]; [reflexivity|].
  unfold shownAll in *. cbn [flat_map]. rewrite forallb_app, IH.
  unfold shown. destruct (getResponseText r) as [s|]; [|reflexivity].
  destruct (Js.truthy s); reflexivity.
Qed.

Lemma quiet_sent :
  forall es : list Event, forallb isQuiet es = true -> sent es = [].
Proof.
  induction es as [|e es IH]; intros H; [reflexivity|].
  cbn in H. apply andb_true_iff in H. destruct H as [He Hes].
  destruct e; cbn in *; try discriminate; auto.
Qed.

Lemma quiet_shutdowns :
  forall es : list Event, forallb isQuiet es = true -> shutdowns es = O.
Proof.
  induction es as [|e es IH]; intros H; [reflexivity|].
  cbn in H. apply andb_true_iff in H. destruct H as [He Hes].
  destruct e; cbn in *; try discriminate; auto.
Qed.

Section LoopFacts.

Context {Client Tools : Type}.
Variable env : Env Client Tools.
Variable promptId : string.


(** However the stream loop ends, it has only written to the two output
    streams. *)
Lemma consumeStream_trace :
  forall t items k (w : World Client Tools) calls,
  exists es : list Event,
    trace (worldOf (consumeStream env t k items w calls)) = (trace w ++ es)%list
    /\ forallb isQuiet es = true
    /\ dispatched es = [].
Proof.
  intros t items. induction items as [|resp items IH]; intros k w calls.
  - exists []. cbn. now rewrite app_nil_r.
  - destruct (signalAborted env t k) eqn:Hsig.
    + cbn [consumeStream]. rewrite Hsig. cbn [worldOf emit trace].
      eexists. split; [reflexivity|]. split; reflexivity.
    + rewrite (consumeStream_step_clear env t k resp items w calls Hsig).
      destruct (IH (S k) (emit (shown resp) w) (calls ++ requested resp)%list)
        as [es [Htr [Hq Hd]]].
      exists (shown resp ++ es)%list. rewrite Htr. cbn [emit trace].
      rewrite <- app_assoc. split; [reflexivity|].
      rewrite forallb_app, dispatched_app, Hq, Hd.
      pose proof (quiet_shownAll [resp]) as Hq1.
      pose proof (dispatched_shownAll [resp]) as Hd1.
      unfold shownAll in Hq1, Hd1. cbn [flat_map] in Hq1, Hd1.
      rewrite app_nil_r in Hq1, Hd1. rewrite Hq1, Hd1. split; reflexivity.
Qed.

Lemma dispatchCall_trace :
  forall (fc : FunctionCall) (w : World Client Tools) (ps : list Part),
  exists es : list Event,
    trace (worldOf (dispatchCall env promptId fc w ps)) = (trace w ++ es)%list
    /\ forallb isQuiet es = true.
Proof.
  intros fc w ps. unfold dispatchCall. cbn [emit tools now trace client].
  destruct (executeToolCall env (tools w) (requestFor promptId fc (now w)))
    as [run ts1].
  destruct (outcome run) as [err|resp].
  - cbn [worldOf trace]. unfold display. rewrite <- app_assoc.
    eexists. split; [reflexivity|].
    rewrite forallb_app, quiet_stdout. reflexivity.
  - destruct (error resp) as [e|];
      [destruct (negb (Js.includes notFoundMarker (message e)))|];
      cbn [worldOf]; unfold emit, errorReport, display; cbn [trace];
      rewrite <- !app_assoc; (eexists; split; [reflexivity|]);
      rewrite !forallb_app, !quiet_stdout; reflexivity.
Qed.

Lemma dispatchCalls_trace :
  forall (fcs : list FunctionCall) (w : World Client Tools) (ps : list Part),
  exists es : list Event,
    trace (worldOf (dispatchCalls env promptId fcs w ps)) = (trace w ++ es)%list
    /\ forallb isQuiet es = true.
Proof.
  induction fcs as [|fc fcs IH]; intros w ps; cbn [dispatchCalls].
  - exists []. cbn. now rewrite app_nil_r.
  - destruct (dispatchCall_trace fc w ps) as [es1 [Htr1 Hq1]].
    destruct (dispatchCall env promptId fc w ps) as [[stop w1]|[w1 ps1]];
      cbn [worldOf] in Htr1.
    + exists es1. cbn [worldOf]. now split.
    + destruct (IH w1 ps1) as [es2 [Htr2 Hq2]].
      exists (es1 ++ es2)%list. rewrite Htr2, Htr1, <- app_assoc.
      split; [reflexivity|]. now rewrite forallb_app, Hq1, Hq2.
Qed.

(** One iteration: either the budget check stops it before anything is
    done, or exactly one message is sent, first thing, and whatever follows
    in that iteration is neither a message nor the telemetry shutdown. *)
Lemma turn_trace :
  forall st : LoopState Client Tools,
    (turn env promptId st
     = inl (Return TurnLimitReached, emit [Stderr maxTurnsMessage] (world st))
     /\ (0 < getMaxSessionTurns env < turnCount st + 1)%Z)
    \/ (~ (0 < getMaxSessionTurns env < turnCount st + 1)%Z
        /\ exists es : list Event,
             forallb isQuiet es = true
             /\ match turn env promptId st with
                | inl (_, w') =>
                    trace w'
                    = (trace (world st)
                       ++ SendMessage (messageOf (currentMessages st)) promptId
                          :: es)%list
                | inr st' =>
                    trace (world st')
                    = (trace (world st)
                       ++ SendMessage (messageOf (currentMessages st)) promptId
                          :: es)%list
                    /\ turnCount st' = (turnCount st + 1)%Z
                end).
Proof.
  intros st. unfold turn.
  destruct ((0 <? getMaxSessionTurns env)%Z
            && (getMaxSessionTurns env <? turnCount st + 1)%Z) eqn:Hcheck.
  - left. apply andb_true_iff in Hcheck. destruct Hcheck as [H1 H2].
    apply Z.ltb_lt in H1. apply Z.ltb_lt in H2. split; [reflexivity | lia].
  - right. split.
    { intros [H1 H2]. apply andb_false_iff in Hcheck.
      destruct Hcheck as [H|H]; apply Z.ltb_ge in H; lia. }
    destruct (sendMessageStream env (client (world st))
                (messageOf (currentMessages st)) promptId)
      as [responseStream client1].
    match goal with
    | |- context [consumeStream env ?t ?k ?items ?w ?calls] =>
        destruct (consumeStream_trace t items k w calls) as [es1 [Htr1 [Hq1 _]]];
        destruct (consumeStream env t k items w calls)
          as [[stop w2]|[w2 calls2]]
    end; cbn [worldOf trace] in Htr1.
    + exists es1. split; [exact Hq1|]. rewrite Htr1, <- app_assoc. reflexivity.
    + destruct (failure responseStream) as [err|].
      * exists es1. split; [exact Hq1|]. rewrite Htr1, <- app_assoc. reflexivity.
      * unfold afterStream. destruct calls2 as [|fc fcs].
        -- exists (es1 ++ [Stdout Js.LF])%list.
           split; [now rewrite forallb_app, Hq1|].
           cbn [emit trace]. rewrite Htr1, <- !app_assoc. reflexivity.
        -- destruct (dispatchCalls_trace (fc :: fcs) w2 []) as [es2 [Htr2 Hq2]].
           destruct (dispatchCalls env promptId (fc :: fcs) w2 [])
             as [[stop w3]|[w3 ps3]]; cbn [worldOf] in Htr2;
             exists (es1 ++ es2)%list;
             (split; [now rewrite forallb_app, Hq1, Hq2|]);
             cbn [world turnCount]; rewrite Htr2, Htr1, <- !app_assoc;
             [reflexivity | split; reflexivity].
Qed.

End LoopFacts.

Lemma first_budget_check_passes :
  forall m : Z, (0 <? m)%Z && (m <? 0 + 1)%Z = false.
Proof.
  intros m. apply andb_false_iff.
  destruct (Z.ltb_spec 0 m) as [H|H]; [right | now left].
  apply Z.ltb_ge. lia.
Qed.

(** Whatever the loop does before it stops, it sends no more messages than
    it takes iterations and never shuts telemetry down itself. *)
Lemma loop_trace :
  forall (Client Tools : Type) (env : Env Client Tools) (promptId : string)
         (fuel : nat) (st : LoopState Client Tools) (stop : Abrupt)
         (w : World Client Tools),
    loop env fuel promptId st = Some (stop, w) ->
    exists es : list Event,
      trace w = (trace (world st) ++ es)%list
      /\ shutdowns es = O
      /\ (length (sent es) <= fuel)%nat.
Proof.
  intros Client Tools env promptId fuel.
  induction fuel as [|fuel IH]; intros st stop w H; [discriminate H|].
  cbn [loop] in H.
  destruct (turn_trace env promptId st) as [[Hturn _]|[_ [es [Hq Hshape]]]].
  - rewrite Hturn in H. injection H as <- <-.
    exists [Stderr maxTurnsMessage]. cbn. repeat split; lia.
  - destruct (turn env promptId st) as [[stop1 w1]|st1].
    + injection H as <- <-.
      exists (SendMessage (messageOf (currentMessages st)) promptId :: es).
      split; [exact Hshape|]. cbn.
      rewrite (quiet_shutdowns es Hq), (quiet_sent es Hq). cbn. split; lia.
    + destruct Hshape as [Htr1 _].
      destruct (IH st1 stop w H) as [es2 [Htr2 [Hs2 Hn2]]].
      exists ((SendMessage (messageOf (currentMessages st)) promptId :: es)
              ++ es2)%list.
      rewrite Htr2, Htr1, <- app_assoc. split; [reflexivity|].
      rewrite shutdowns_app, sent_app, length_app. cbn.
      rewrite (quiet_shutdowns es Hq), (quiet_sent es Hq), Hs2. cbn. split; lia.
Qed.

(** X1: a run that ends has started by sending the input to the model, as
    a single text part: the first iteration is never stopped by the turn
    budget. *)
Theorem run_starts_by_sending_input :
  forall (Client Tools : Type) (env : Env Client Tools) (fuel : nat)
         (input promptId : string) (w0 w : World Client Tools) (f : Final),
    runNonInteractive env fuel input promptId w0 = Some (f, w) ->
    exists es : list Event,
      trace w
      = (trace w0 ++ SendMessage [asTextPart input] promptId :: es)%list.
Proof.
  intros Client Tools env fuel input promptId w0 w f H.
  unfold runNonInteractive in H.
  destruct (loop env fuel promptId (initialState input w0))
    as [[stop w1]|] eqn:Hloop; [|discriminate H].
  cbn [option_map] in H. injection H as Hfin.
  assert (Hpre : exists es, trace w1
            = (trace w0 ++ SendMessage [asTextPart input] promptId :: es)%list).
  { destruct fuel as [|fuel]; [discriminate Hloop|]. cbn [loop] in Hloop.
    destruct (turn_trace env promptId (initialState input w0))
      as [[_ Hlim]|[_ [es [_ Hshape]]]].
    - cbn [initialState turnCount] in Hlim. lia.
    - destruct (turn env promptId (initialState input w0)) as [[stop1 w2]|st1].
      + injection Hloop as _ <-. exists es. exact Hshape.
      + destruct Hshape as [Htr1 _].
        destruct (loop_trace _ _ env promptId fuel st1 stop w1 Hloop)
          as [es2 [Htr2 _]].
        exists (es ++ es2)%list. rewrite Htr2, Htr1.
        cbn [initialState world currentMessages messageOf userTurn parts].
        rewrite <- app_assoc. reflexivity. }
  destruct Hpre as [es Hes].
  destruct stop as [why|code|err]; cbn [finish] in Hfin.
  - injection Hfin as _ <-.
    destruct (isTelemetrySdkInitialized env).
    + exists (es ++ [ShutdownTelemetry])%list. cbn [emit trace].
      rewrite Hes, <- app_assoc. reflexivity.
    + exists es. exact Hes.
  - injection Hfin as _ <-. exists es. exact Hes.
  - injection Hfin as _ <-.
    exists (es ++ [Stderr (parseAndFormatApiError env err)])%list.
    cbn [emit trace]. rewrite Hes, <- app_assoc. reflexivity.
Qed.

Lemma run_starts_by_sending_input_witness :
  exists es : list Event,
    trace
      (emit [Stdout Js.LF]
         (emit [Stdout "hello"]
            (mkWorld [SendMessage [asTextPart "hi"] "p"] 1000 1%nat tt)))
    = (trace (freshWorld 1000) ++ SendMessage [asTextPart "hi"] "p" :: es)%list.
Proof.
  apply (run_starts_by_sending_input nat unit
           (scriptedEnv 0 (fun _ => mkStream [textChunk "hello"] None)
              (fun _ => succeedWith "ok" "done" 1) neverAborted)
           1 "hi" "p" (freshWorld 1000) _ (Returned Completed)).
  reflexivity.
Defined.

(** X2: telemetry is shut down exactly when [runNonInteractive] returns
    (the model stopped asking for tools, the budget was used up, or the run
    was cancelled) and the SDK was initialized, and then once; a run ended
    by [process.exit] (fatal tool error, exception) leaves it as it is. *)
Theorem telemetry_shutdown_iff_returned :
  forall (Client Tools : Type) (env : Env Client Tools) (fuel : nat)
         (input promptId : string) (w0 w : World Client Tools) (f : Final),
    runNonInteractive env fuel input promptId w0 = Some (f, w) ->
    shutdowns (trace w)
    = (shutdowns (trace w0)
       + match f with
         | Returned _ => if isTelemetrySdkInitialized env then 1 else 0
         | Exited _ => 0
         end)%nat.
Proof.
  intros Client Tools env fuel input promptId w0 w f H.
  unfold runNonInteractive in H.
  destruct (loop env fuel promptId (initialState input w0))
    as [[stop w1]|] eqn:Hloop; [|discriminate H].
  destruct (loop_trace _ _ env promptId fuel _ stop w1 Hloop)
    as [es [Htr [Hs _]]].
  cbn [initialState world] in Htr.
  cbn [option_map] in H. injection H as Hfin.
  destruct stop as [why|code|err]; cbn [finish] in Hfin;
    injection Hfin as <- <-.
  - destruct (isTelemetrySdkInitialized env); cbn [emit trace];
      rewrite Htr, ?shutdowns_app, Hs; cbn; lia.
  - rewrite Htr, shutdowns_app, Hs. lia.
  - cbn [emit trace]. rewrite Htr, !shutdowns_app, Hs. cbn. lia.
Qed.

Lemma telemetry_shutdown_iff_returned_witness :
  shutdowns
    (trace
       (mkWorld
          [ SendMessage [asTextPart "hi"] "p";
            Stderr "quota exceeded" ] 1000 1%nat tt))
  = O.
Proof.
  apply (telemetry_shutdown_iff_returned nat unit
           {| getMaxSessionTurns := 0;
              sendMessageStream :=
                fun served _ _ => (mkStream [] (Some "quota exceeded"), S served);
              executeToolCall := fun _ _ => (succeedWith "ok" "done" 1, tt);
              signalAborted := neverAborted;
              toLocaleTimeString := Js.decimal;
              parseAndFormatApiError := fun err => err;
              isTelemetrySdkInitialized := true |}
           1 "hi" "p" (freshWorld 1000) _ (Exited 1)).
  reflexivity.
Defined.

(** With a positive budget and [n] passes left, the loop stops within
    [n + 1] iterations, whatever the model and the tools do. *)
Lemma loop_stops_within_budget :
  forall (Client Tools : Type) (env : Env Client Tools) (promptId : string)
         (n fuel : nat) (st : LoopState Client Tools),
    (0 < getMaxSessionTurns env)%Z ->
    (getMaxSessionTurns env <= turnCount st + Z.of_nat n)%Z ->
    (n < fuel)%nat ->
    exists (stop : Abrupt) (w : World Client Tools),
      loop env fuel promptId st = Some (stop, w)
      /\ (length (sent (trace w)) <= length (sent (trace (world st))) + n)%nat.
Proof.
  intros Client Tools env promptId n.
  induction n as [|n IH]; intros fuel st Hpos Hleft Hfuel;
    (destruct fuel as [|fuel]; [lia|]); cbn [loop];
    destruct (turn_trace env promptId st) as [[Hturn _]|[Hlim [es [Hq Hshape]]]].
  - rewrite Hturn. eexists. eexists. split; [reflexivity|].
    cbn [emit trace]. rewrite sent_app. cbn. rewrite app_nil_r. lia.
  - exfalso. apply Hlim. lia.
  - rewrite Hturn. eexists. eexists. split; [reflexivity|].
    cbn [emit trace]. rewrite sent_app. cbn. rewrite app_nil_r. lia.
  - destruct (turn env promptId st) as [[stop1 w1]|st1].
    + eexists. eexists. split; [reflexivity|].
      rewrite Hshape, sent_app, length_app. cbn.
      rewrite (quiet_sent es Hq). cbn. lia.
    + destruct Hshape as [Htr1 Htc].
      destruct (IH fuel st1 Hpos) as [stop [w [Hloop Hlen]]]; [lia | lia |].
      exists stop, w. split; [exact Hloop|].
      rewrite Htr1, sent_app, length_app in Hlen. cbn in Hlen.
      rewrite (quiet_sent es Hq) in Hlen. cbn in Hlen. lia.
Qed.

(** X3: a positive turn budget bounds every run, whatever the model client,
    the dispatcher and the abort signal do: with a budget of N the loop has
    ended after at most N + 1 iterations, and the model was sent at most N
    messages. *)
Theorem positive_budget_bounds_every_run :
  forall (Client Tools : Type) (env : Env Client Tools) (fuel : nat)
         (input promptId : string) (w0 : World Client Tools),
    (0 < getMaxSessionTurns env)%Z ->
    (Z.to_nat (getMaxSessionTurns env) < fuel)%nat ->
    exists (f : Final) (w : World Client Tools),
      runNonInteractive env fuel input promptId w0 = Some (f, w)
      /\ (length (sent (trace w))
          <= length (sent (trace w0)) + Z.to_nat (getMaxSessionTurns env))%nat.
Proof.
  intros Client Tools env fuel input promptId w0 Hpos Hfuel.
  destruct (loop_stops_within_budget _ _ env promptId
              (Z.to_nat (getMaxSessionTurns env)) fuel
              (initialState input w0) Hpos)
    as [stop [w [Hloop Hlen]]].
  - cbn [initialState turnCount]. lia.
  - exact Hfuel.
  - cbn [initialState world] in Hlen.
    unfold runNonInteractive. rewrite Hloop. cbn [option_map].
    destruct stop as [why|code|err]; cbn [finish];
      eexists; eexists; (split; [reflexivity|]).
    + destruct (isTelemetrySdkInitialized env); cbn [emit trace];
        rewrite ?sent_app; cbn; rewrite ?app_nil_r; exact Hlen.
    + exact Hlen.
    + cbn [emit trace]. rewrite sent_app. cbn. rewrite app_nil_r. exact Hlen.
Qed.

Lemma positive_budget_bounds_every_run_witness :
  exists (f : Final) (w : World nat unit),
    runNonInteractive
      (scriptedEnv 1 (fun _ => mkStream [callChunk [callOf "ls" []]] None)
         (fun _ => failWith "Tool ls not found in registry." "err" 1)
         neverAborted)
      2 "hi" "p" (freshWorld 1000)
    = Some (f, w)
    /\ (length (sent (trace w)) <= 1)%nat.
Proof.
  apply (positive_budget_bounds_every_run nat unit
           (scriptedEnv 1 (fun _ => mkStream [callChunk [callOf "ls" []]] None)
              (fun _ => failWith "Tool ls not found in registry." "err" 1)
              neverAborted)
           2 "hi" "p" (freshWorld 1000)).
  - reflexivity.
  - cbn. lia.
Defined.

(** X4: without a positive budget ([getMaxSessionTurns() <= 0]) nothing
    bounds the loop: while the model keeps asking for tool calls that do
    not fail fatally and nobody cancels, it is still running after any
    number of iterations. *)
Theorem unlimited_turns_never_stop :
  forall (Client Tools : Type) (env : Env Client Tools)
         (input promptId : string) (w0 : World Client Tools),
    (getMaxSessionTurns env <= 0)%Z ->
    (forall (c : Client) (msg : list Part),
        failure (fst (sendMessageStream env c msg promptId)) = None
        /\ requestedAll (chunks (fst (sendMessageStream env c msg promptId)))
           <> []) ->
    (forall (t : Z) (k : nat), signalAborted env t k = false) ->
    (forall (ts : Tools) (request : ToolCallRequestInfo),
      exists resp : ToolCallResponseInfo,
        outcome (fst (executeToolCall env ts request)) = inr resp
        /\ forall e : ToolError,
             error resp = Some e ->
             Js.includes "not found in registry" (message e) = true) ->
    forall fuel : nat, runNonInteractive env fuel input promptId w0 = None.
Proof.
  intros Client Tools env input promptId w0 Hmax Hclient Hsig Htools fuel.
  unfold runNonInteractive.
  assert (Hloop : forall st, loop env fuel promptId st = None).
  { induction fuel as [|fuel IH]; intros st; [reflexivity|]. cbn [loop].
    destruct (turn_within_budget env promptId Hclient Hsig Htools st)
      as [st' [Hturn _]].
    - apply andb_false_iff. left. apply Z.ltb_ge. exact Hmax.
    - rewrite Hturn. apply IH. }
  now rewrite Hloop.
Qed.

Lemma unlimited_turns_never_stop_witness :
  runNonInteractive
    (scriptedEnv (-1) (fun _ => mkStream [callChunk [callOf "ls" []]] None)
       (fun _ => succeedWith "ok" "done" 1) neverAborted)
    50 "hi" "p" (freshWorld 1000)
  = None.
Proof.
  apply (unlimited_turns_never_stop nat unit
           (scriptedEnv (-1) (fun _ => mkStream [callChunk [callOf "ls" []]] None)
              (fun _ => succeedWith "ok" "done" 1) neverAborted)
           "hi" "p" (freshWorld 1000)).
  - discriminate.
  - intros c msg. split; [reflexivity | discriminate].
  - intros t k. reflexivity.
  - intros ts request. eexists. split; [reflexivity|].
    intros e He. discriminate He.
Defined.

(** X5: when the first stream ends normally, uncancelled, without a single
    function call, the run is over after that one pass: the text of the
    chunks was written in order, then a newline, nothing was dispatched,
    and the function returns (exit status 0). *)
Theorem run_completes_without_calls :
  forall (Client Tools : Type) (env : Env Client Tools) (fuel : nat)
         (input promptId : string) (w0 : World Client Tools)
         (responseStream : ResponseStream) (client1 : Client),
    sendMessageStream env (client w0) [asTextPart input] promptId
    = (responseStream, client1) ->
    failure responseStream = None ->
    requestedAll (chunks responseStream) = [] ->
    (forall k, (k < length (chunks responseStream))%nat ->
               signalAborted env 1 k = false) ->
    exists w : World Client Tools,
      runNonInteractive env (S fuel) input promptId w0
      = Some (Returned Completed, w)
      /\ trace w
         = (trace w0
            ++ [SendMessage [asTextPart input] promptId]
            ++ shownAll (chunks responseStream)
            ++ [Stdout Js.LF]
            ++ (if isTelemetrySdkInitialized env
                then [ShutdownTelemetry] else []))%list
      /\ dispatched (trace w) = dispatched (trace w0)
      /\ exitStatus (Returned Completed) = 0%Z.
Proof.
  intros Client Tools env fuel input promptId w0 responseStream client1
    Hsend Hfail Hnone Hclear.
  assert (Hturn :
    turn env promptId (initialState input w0)
    = inl (Return Completed,
           {| trace := (trace w0
                        ++ [SendMessage [asTextPart input] promptId]
                        ++ shownAll (chunks responseStream)
                        ++ [Stdout Js.LF])%list;
              now := now w0; client := client1; tools := tools w0 |})).
  { unfold turn.
    cbn [initialState world currentMessages turnCount messageOf userTurn parts].
    rewrite first_budget_check_passes, Hsend.
    rewrite consumeStream_clear by (intros j Hj; now apply Hclear).
    rewrite Hfail, Hnone. cbn [app afterStream]. unfold emit.
    cbn [trace now client tools]. rewrite <- !app_assoc. reflexivity. }
  unfold runNonInteractive. cbn [loop]. rewrite Hturn.
  cbn [option_map finish].
  eexists. split; [reflexivity|]. split; [|split; [|reflexivity]].
  - destruct (isTelemetrySdkInitialized env); cbn [emit trace];
      rewrite <- ?app_assoc, ?app_nil_r; reflexivity.
  - destruct (isTelemetrySdkInitialized env); cbn [emit trace];
      rewrite !dispatched_app, dispatched_shownAll; cbn;
      now rewrite ?app_nil_r.
Qed.

Lemma run_completes_without_calls_witness :
  exists w : World nat unit,
    runNonInteractive
      (scriptedEnv 0 (fun _ => mkStream [textChunk "Hel"; textChunk "lo"] None)
         (fun _ => succeedWith "ok" "done" 1) neverAborted)
      1 "hi" "p" (freshWorld 1000)
    = Some (Returned Completed, w)
    /\ trace w
       = [ SendMessage [asTextPart "hi"] "p"; Stdout "Hel"; Stdout "lo";
           Stdout Js.LF ].
Proof.
  destruct (run_completes_without_calls nat unit
              (scriptedEnv 0
                 (fun _ => mkStream [textChunk "Hel"; textChunk "lo"] None)
                 (fun _ => succeedWith "ok" "done" 1) neverAborted)
              O "hi" "p" (freshWorld 1000)
              (mkStream [textChunk "Hel"; textChunk "lo"] None) 1%nat
              eq_refl eq_refl eq_refl (fun k _ => eq_refl))
    as [w [Hrun [Htr _]]].
  exists w. split; [exact Hrun | exact Htr].
Defined.

(** X6: when the first stream breaks with an error before cancellation is
    seen, the run ends with exit status 1: the text of the chunks delivered
    so far was written, the formatted error is the last thing on standard
    error, the calls those chunks asked for are not dispatched, and
    telemetry is not shut down. *)
Theorem stream_failure_exits_1 :
  forall (Client Tools : Type) (env : Env Client Tools) (fuel : nat)
         (input promptId : string) (w0 : World Client Tools)
         (responseStream : ResponseStream) (client1 : Client) (err : string),
    sendMessageStream env (client w0) [asTextPart input] promptId
    = (responseStream, client1) ->
    failure responseStream = Some err ->
    (forall k, (k < length (chunks responseStream))%nat ->
               signalAborted env 1 k = false) ->
    exists w : World Client Tools,
      runNonInteractive env (S fuel) input promptId w0 = Some (Exited 1, w)
      /\ trace w
         = (trace w0
            ++ [SendMessage [asTextPart input] promptId]
            ++ shownAll (chunks responseStream)
            ++ [Stderr (parseAndFormatApiError env err)])%list
      /\ dispatched (trace w) = dispatched (trace w0)
      /\ shutdowns (trace w) = shutdowns (trace w0).
Proof.
  intros Client Tools env fuel input promptId w0 responseStream client1 err
    Hsend Hfail Hclear.
  assert (Hturn :
    turn env promptId (initialState input w0)
    = inl (Throw err,
           {| trace := (trace w0
                        ++ [SendMessage [asTextPart input] promptId]
                        ++ shownAll (chunks responseStream))%list;
              now := now w0; client := client1; tools := tools w0 |})).
  { unfold turn.
    cbn [initialState world currentMessages turnCount messageOf userTurn parts].
    rewrite first_budget_check_passes, Hsend.
    rewrite consumeStream_clear by (intros j Hj; now apply Hclear).
    rewrite Hfail. unfold emit.
    cbn [trace now client tools]. rewrite <- !app_assoc. reflexivity. }
  unfold runNonInteractive. cbn [loop]. rewrite Hturn.
  cbn [option_map finish emit trace now client tools].
  eexists. split; [reflexivity|]. cbn [emit trace].
  split; [rewrite <- ?app_assoc; reflexivity|]. split.
  - rewrite !dispatched_app, dispatched_shownAll. cbn. now rewrite ?app_nil_r.
  - rewrite !shutdowns_app, (quiet_shutdowns _ (quiet_shownAll _)). cbn. lia.
Qed.

Lemma stream_failure_exits_1_witness :
  exists w : World nat unit,
    runNonInteractive
      (scriptedEnv 0
         (fun _ => mkStream [callChunk [callOf "rm" []]] (Some "socket hang up"))
         (fun _ => succeedWith "ok" "done" 1) neverAborted)
      1 "hi" "p" (freshWorld 1000)
    = Some (Exited 1, w)
    /\ trace w = [ SendMessage [asTextPart "hi"] "p"; Stderr "socket hang up" ].
Proof.
  destruct (stream_failure_exits_1 nat unit
              (scriptedEnv 0
                 (fun _ => mkStream [callChunk [callOf "rm" []]]
                             (Some "socket hang up"))
                 (fun _ => succeedWith "ok" "done" 1) neverAborted)
              O "hi" "p" (freshWorld 1000)
              (mkStream [callChunk [callOf "rm" []]] (Some "socket hang up"))
              1%nat "socket hang up" eq_refl eq_refl (fun k _ => eq_refl))
    as [w [Hrun [Htr _]]].
  exists w. split; [exact Hrun | exact Htr].
Defined.



(** X8: when [executeToolCall] itself throws, the exception leaves the
    loop over the calls at once: the call was announced and dispatched,
    nothing is reported for it through the observability events, the calls
    behind it are not dispatched, and the [catch] block prints the
    formatted error and ends the process with status 1. *)
Theorem dispatcher_exception_exits_1 :
  forall (Client Tools : Type) (env : Env Client Tools) (promptId : string)
         (turnCount1 : Z) (pre : list FunctionCall) (fc : FunctionCall)
         (rest : list FunctionCall) (w0 w : World Client Tools)
         (ps : list Part) (run : ToolRun) (tools1 : Tools) (err : string),
    dispatchCalls env promptId pre w0 [] = inr (w, ps) ->
    executeToolCall env (tools w) (requestFor promptId fc (now w))
    = (run, tools1) ->
    outcome run = inl err ->
    exists w' : World Client Tools,
      trace w'
      = (trace w
         ++ display env w (name fc) (argsOf fc) Start None None
         ++ [Dispatch (requestFor promptId fc (now w))])%list
      /\ afterStream env promptId turnCount1 (pre ++ fc :: rest) w0
         = inl (Throw err, w')
      /\ finish env (Throw err, w')
         = (Exited 1, emit [Stderr (parseAndFormatApiError env err)] w').
Proof.
  intros Client Tools env promptId turnCount1 pre fc rest w0 w ps run tools1
    err Hpre Hexec Hout.
  pose (w' :=
    {| trace :=
         (trace w
          ++ display env w (name fc) (argsOf fc) Start None None
          ++ [Dispatch (requestFor promptId fc (now w))])%list;
       now := (now w + elapsed run)%N;
       client := client w;
       tools := tools1 |}).
  assert (Hcall : dispatchCall env promptId fc w ps = inl (Throw err, w')).
  { unfold dispatchCall. cbn [emit tools now trace client]. rewrite Hexec.
    rewrite Hout. unfold w'. rewrite <- app_assoc. reflexivity. }
  exists w'. split; [reflexivity|]. split; [|reflexivity].
  unfold afterStream. rewrite dispatchCalls_app, Hpre.
  cbn [dispatchCalls]. rewrite Hcall. destruct pre; reflexivity.
Qed.

Lemma dispatcher_exception_exits_1_witness :
  exists w' : World nat unit,
    afterStream
      (scriptedEnv 0 (fun _ => mkStream [] None)
         (fun _ => {| outcome := inl "ENOMEM"; elapsed := 1 |}) neverAborted)
      "p" 1 [callOf "ls" []; callOf "cat" []] (freshWorld 1000)
    = inl (Throw "ENOMEM", w')
    /\ map reqName (dispatched (trace w')) = ["ls"].
Proof.
  destruct (dispatcher_exception_exits_1 nat unit
              (scriptedEnv 0 (fun _ => mkStream [] None)
                 (fun _ => {| outcome := inl "ENOMEM"; elapsed := 1 |})
                 neverAborted)
              "p" 1%Z [] (callOf "ls" []) [callOf "cat" []]
              (freshWorld 1000) (freshWorld 1000) []
              {| outcome := inl "ENOMEM"; elapsed := 1 |} tt "ENOMEM"
              eq_refl eq_refl eq_refl)
    as [w' [Htr [Hafter _]]].
  exists w'. split; [exact Hafter|]. rewrite Htr. reflexivity.
Defined.

(** X9: a tool call answered without an error is reported by a 'success'
    observability event carrying its result display; nothing is written to
    standard error for it, its response parts are appended to the result
    parts, and the loop over the calls goes on. *)
Theorem successful_call_is_reported :
  forall (Client Tools : Type) (env : Env Client Tools) (promptId : string)
         (fc : FunctionCall) (rest : list FunctionCall)
         (w : World Client Tools) (ps : list Part) (run : ToolRun)
         (tools1 : Tools) (toolResponse : ToolCallResponseInfo),
    executeToolCall env (tools w) (requestFor promptId fc (now w))
    = (run, tools1) ->
    outcome run = inr toolResponse ->
    error toolResponse = None ->
    exists w' : World Client Tools,
      trace w'
      = (trace w
         ++ display env w (name fc) (argsOf fc) Start None None
         ++ [Dispatch (requestFor promptId fc (now w))]
         ++ display env w' (name fc) (argsOf fc) Success
              (resultDisplay toolResponse) None)%list
      /\ complaints (trace w') = complaints (trace w)
      /\ now w' = (now w + elapsed run)%N
      /\ dispatchCalls env promptId (fc :: rest) w ps
         = dispatchCalls env promptId rest w'
             (ps ++ normalizeParts (responseParts toolResponse)).
Proof.
  intros Client Tools env promptId fc rest w ps run tools1 toolResponse
    Hexec Hout Herr.
  pose (w' :=
    {| trace :=
         (trace w
          ++ display env w (name fc) (argsOf fc) Start None None
          ++ [Dispatch (requestFor promptId fc (now w))]
          ++ map Stdout
               (displayToolCallInfo
                  (toLocaleTimeString env (now w + elapsed run)%N)
                  (name fc) (argsOf fc) Success
                  (resultDisplay toolResponse) None))%list;
       now := (now w + elapsed run)%N;
       client := client w;
       tools := tools1 |}).
  assert (Hcall :
    dispatchCall env promptId fc w ps
    = inr (w', (ps ++ normalizeParts (responseParts toolResponse))%list)).
  { unfold dispatchCall. cbn [emit tools now trace client]. rewrite Hexec.
    rewrite Hout, Herr. unfold emit, display, w'.
    cbn [trace now client tools]. rewrite <- !app_assoc. reflexivity. }
  exists w'. split; [reflexivity|]. split; [|split; [reflexivity|]].
  - unfold w', display. cbn [trace]. rewrite !complaints_app.
    assert (Hout0 : forall ss, complaints (map Stdout ss) = []).
    { induction ss; cbn; auto. }
    rewrite !Hout0. cbn. now rewrite app_nil_r.
  - cbn [dispatchCalls]. now rewrite Hcall.
Qed.

Lemma successful_call_is_reported_witness :
  exists w' : World nat unit,
    dispatchCalls
      (scriptedEnv 0 (fun _ => mkStream [] None)
         (fun _ => succeedWith "a.txt" "done" 7) neverAborted)
      "p" [callOf "ls" []] (freshWorld 1000) []
    = inr (w', [asTextPart "done"])
    /\ complaints (trace w') = []
    /\ now w' = 1007%N.
Proof.
  destruct (successful_call_is_reported nat unit
              (scriptedEnv 0 (fun _ => mkStream [] None)
                 (fun _ => succeedWith "a.txt" "done" 7) neverAborted)
              "p" (callOf "ls" []) [] (freshWorld 1000) []
              (succeedWith "a.txt" "done" 7) tt
              {| error := None; resultDisplay := Some (RDString "a.txt");
                 responseParts := Some (PLOne (PUString "done")) |}
              eq_refl eq_refl eq_refl)
    as [w' [_ [Hc [Hn Hd]]]].
  exists w'. split; [exact Hd|]. split; [exact Hc | exact Hn].
Defined.

(** X10: a response part given alone is collected like the one-element
    array of it, with one exception: the empty string alone is dropped,
    whereas inside an array it becomes a text part with empty text.  An
    array contributes one part per element, in order. *)
Theorem normalizeParts_single_and_array :
  (forall p : PartUnion,
      p <> PUString EmptyString ->
      normalizeParts (Some (PLOne p)) = normalizeParts (Some (PLArray [p])))
  /\ normalizeParts (Some (PLOne (PUString EmptyString))) = []
  /\ normalizeParts (Some (PLArray [PUString EmptyString]))
     = [asTextPart EmptyString]
  /\ (forall ps qs : list PartUnion,
         normalizeParts (Some (PLArray (ps ++ qs)))
         = (normalizeParts (Some (PLArray ps))
            ++ normalizeParts (Some (PLArray qs)))%list
         /\ length (normalizeParts (Some (PLArray ps))) = length ps).
Proof.
  split; [|split; [reflexivity|split; [reflexivity|]]].
  - intros [s|p] Hp; [|reflexivity].
    destruct s as [|a s]; [contradiction|reflexivity].
  - intros ps qs. cbn [normalizeParts]. split.
    + apply map_app.
    + apply length_map.
Qed.

Lemma normalizeParts_single_and_array_witness :
  normalizeParts (Some (PLOne (PUString "done")))
  = normalizeParts (Some (PLArray [PUString "done"])).
Proof.
  destruct normalizeParts_single_and_array as [H _].
  apply H. discriminate.
Defined.

(** * Further properties of the pure helpers *)

Lemma join_truthyTexts :
  forall ps : list Part,
    Js.join (truthyTexts ps)
    = Js.join (map (fun q => match text q with
                             | Some s => s
                             | None => EmptyString
                             end) ps).
Proof.
  induction ps as [|p ps IH]; [reflexivity|].
  cbn [truthyTexts map]. destruct (text p) as [s|].
  - destruct s as [|a s]; cbn [Js.truthy].
    + rewrite IH. reflexivity.
    + unfold Js.join in *. cbn [fold_right]. now rewrite IH.
  - rewrite IH. reflexivity.
Qed.

(** X11: when the first part is not a thought, the extracted text is the
    text of every part of the first candidate, concatenated in order with
    nothing in between; a part without text (or with empty text) counts for
    nothing, and thought flags behind the first part change nothing. *)
Theorem getResponseText_concatenates_in_order :
  forall (p : Part) (ps : list Part) (cands : list Candidate)
         (r : option string) (fcs : option (list FunctionCall)),
    truthyFlag (thought p) = false ->
    getResponseText (responseWith (p :: ps) cands r fcs)
    = Some (Js.join (map (fun q => match text q with
                                   | Some s => s
                                   | None => EmptyString
                                   end) (p :: ps))).
Proof.
  intros p ps cands r fcs Hp.
  unfold getResponseText, responseWith. cbn [candidates content parts].
  rewrite Hp. f_equal. apply join_truthyTexts.
Qed.

Lemma getResponseText_concatenates_in_order_witness :
  getResponseText
    (responseWith
       [ asTextPart "A"; mkPart None None (Some "inlineData");
         mkPart (Some "B") (Some true) None; asTextPart EmptyString;
         asTextPart "C" ] [] (Some "model") None)
  = Some "ABC".
Proof.
  apply (getResponseText_concatenates_in_order (asTextPart "A")
           [ mkPart None None (Some "inlineData");
             mkPart (Some "B") (Some true) None; asTextPart EmptyString;
             asTextPart "C" ] [] (Some "model") None).
  reflexivity.
Defined.

(** X12: [getResponseText] returns null exactly when the first candidate
    has no first part to look at (no candidate, no content, no parts, or an
    empty list of parts) or when that first part is a thought. *)
Theorem getResponseText_null_iff :
  forall response : GenerateContentResponse,
    getResponseText response = None
    <-> (forall (cand : Candidate) (cands : list Candidate) (c : Content)
                (p : Part) (ps : list Part),
            candidates response = Some (cand :: cands) ->
            content cand = Some c ->
            parts c = Some (p :: ps) ->
            truthyFlag (thought p) = true).
Proof.
  intros response. unfold getResponseText. split.
  - intros H cand cands c p ps Hc Hcont Hparts.
    rewrite Hc, Hcont, Hparts in H.
    destruct (truthyFlag (thought p)); [reflexivity | discriminate H].
  - intros H.
    destruct (candidates response) as [[|cand cands]|]; try reflexivity.
    destruct (content cand) as [c|] eqn:Hcont; try reflexivity.
    destruct (parts c) as [[|p ps]|] eqn:Hparts; try reflexivity.
    now rewrite (H cand cands c p ps eq_refl Hcont Hparts).
Qed.

Lemma startsWith_app :
  forall n a b : string,
    Js.startsWith n a = true -> Js.startsWith n (a ++ b) = true.
Proof.
  induction n as [|c n IH]; intros a b H; [reflexivity|].
  destruct a as [|d a]; [discriminate H|].
  cbn [Js.startsWith append] in *.
  apply andb_true_iff in H. destruct H as [H1 H2].
  now rewrite H1, (IH a b H2).
Qed.

Lemma includes_app_l :
  forall n a b : string,
    Js.includes n a = true -> Js.includes n (a ++ b) = true.
Proof.
  intros n a. induction a as [|d a IH]; intros b H.
  - cbn [Js.includes] in H. rewrite orb_false_r in H.
    destruct n; [|discriminate H]. now destruct b.
  - cbn [Js.includes append] in *. apply orb_true_iff in H.
    destruct H as [H|H].
    + change (String d (a ++ b)) with (String d a ++ b).
      now rewrite (startsWith_app n (String d a) b H).
    + rewrite (IH b H). apply orb_true_r.
Qed.

Lemma includes_app_r :
  forall n a b : string,
    Js.includes n b = true -> Js.includes n (a ++ b) = true.
Proof.
  intros n a. induction a as [|d a IH]; intros b H; [exact H|].
  cbn [Js.includes append]. rewrite (IH b H). apply orb_true_r.
Qed.

Lemma formatArg_has_colon :
  forall entry : string * ArgValue, Js.includes ":" (formatArg entry) = true.
Proof.
  intros [key value]. unfold formatArg.
  destruct value; apply includes_app_r; reflexivity.
Qed.

(** X13: the rendering of the arguments is always wrapped in parentheses,
    and it is the text "(no arguments)" for the empty mapping only: no
    mapping with an entry is ever rendered that way. *)
Theorem formatToolArgs_shape :
  forall a : Args,
    (exists body : string, formatToolArgs a = "(" ++ body ++ ")")
    /\ (formatToolArgs a = "(no arguments)" <-> a = []).
Proof.
  intros a. split.
  - destruct a as [|e a]; cbn [formatToolArgs].
    + exists "no arguments". reflexivity.
    + eexists. reflexivity.
  - split; [|intros ->; reflexivity].
    destruct a as [|e a]; [reflexivity|]. intros H. exfalso.
    assert (Hin : Js.includes ":" (formatToolArgs (e :: a)) = true).
    { cbn [formatToolArgs]. apply includes_app_r, includes_app_l.
      cbn [map joinWith]. destruct (map formatArg a).
      - apply formatArg_has_colon.
      - apply includes_app_l, formatArg_has_colon. }
    rewrite H in Hin. discriminate Hin.
Qed.

Lemma ends_app :
  forall a b : string,
    (exists t, b = t ++ Js.LF) -> exists t, a ++ b = t ++ Js.LF.
Proof.
  intros a b [t ->]. exists (a ++ t).
  induction a as [|c a IH]; [reflexivity|]. cbn [append]. now rewrite IH.
Qed.

(** X14: whatever it is called with, the reporter writes one to three
    strings, and each of them ends with a newline: the observability output
    is made of whole lines. *)
Theorem displayToolCallInfo_writes_whole_lines :
  forall (timestamp toolName : string) (a : Args) (status : Status)
         (rd : option ToolResultDisplay) (errorMessage : option string),
    let out := displayToolCallInfo timestamp toolName a status rd errorMessage in
    (1 <= length out <= 3)%nat
    /\ Forall (fun s => exists t, s = t ++ Js.LF) out.
Proof.
  intros timestamp toolName a status rd errorMessage. cbv zeta.
  assert (Hlf : exists t, Js.LF = t ++ Js.LF) by (exists EmptyString; reflexivity).
  unfold displayToolCallInfo, completedBanner, noOutputBanner.
  destruct status;
    [ | destruct rd as [[s|fileName fileDiff|repr]|];
        [destruct (truthyDisplay (RDString s)); [destruct (Js.truthy (Js.trim s))|]
        | cbn [truthyDisplay] | cbn [truthyDisplay] | ] | | ];
    (split; [cbn [length]; lia|]);
    repeat (apply Forall_cons || apply Forall_nil);
    repeat (apply ends_app); exact Hlf.
Qed.

(** * Further properties of the startup warnings *)

Lemma homeDirectoryCheck_resolves :
  forall (realpath : string -> Settled string) (homedir : Settled string)
         (workspaceRoot : string),
  exists h : option string,
    check (homeDirectoryCheck realpath homedir) workspaceRoot = Resolved h.
Proof.
  intros realpath homedir workspaceRoot. cbn [check homeDirectoryCheck].
  destruct homedir as [home|]; [|eexists; reflexivity].
  cbn [promiseAll].
  destruct (realpath workspaceRoot) as [wr|];
    destruct (realpath home) as [hr|]; try (eexists; reflexivity).
  destruct (String.eqb wr hr); eexists; reflexivity.
Qed.

(** X15: the home-directory warning is given exactly when the workspace
    root and the home directory resolve to the same real path; the paths
    as given are not compared. *)
Theorem homeDirectoryCheck_warns_iff_same_real_path :
  forall (realpath : string -> Settled string) (homedir : Settled string)
         (workspaceRoot : string),
    check (homeDirectoryCheck realpath homedir) workspaceRoot
    = Resolved (Some homeDirectoryWarning)
    <-> exists home p : string,
          homedir = Resolved home
          /\ realpath workspaceRoot = Resolved p
          /\ realpath home = Resolved p.
Proof.
  intros realpath homedir workspaceRoot. cbn [check homeDirectoryCheck]. split.
  - destruct homedir as [home|]; [|discriminate].
    cbn [promiseAll].
    destruct (realpath workspaceRoot) as [wr|] eqn:Ew;
      destruct (realpath home) as [hr|] eqn:Eh; try discriminate.
    destruct (String.eqb wr hr) eqn:E; [|discriminate].
    apply String.eqb_eq in E. subst hr. intros _. now exists home, wr.
  - intros [home [p [-> [Ew Eh]]]]. cbn [promiseAll].
    rewrite Ew, Eh, String.eqb_refl. reflexivity.
Qed.

(** X16: [getUserStartupWarnings] rejects exactly when [semver.major]
    throws on the version of the runtime: a failure of the file system
    never makes it reject. *)
Theorem getUserStartupWarnings_rejects_iff :
  forall (realpath : string -> Settled string) (homedir : Settled string)
         (nodeVersion : string) (semverMajor : string -> Settled N)
         (workspaceRoot : string),
    getUserStartupWarnings realpath homedir nodeVersion semverMajor
      workspaceRoot = Rejected
    <-> semverMajor nodeVersion = Rejected.
Proof.
  intros realpath homedir nodeVersion semverMajor workspaceRoot.
  unfold getUserStartupWarnings, WARNING_CHECKS. cbn [map promiseAll].
  destruct (homeDirectoryCheck_resolves realpath homedir workspaceRoot)
    as [h Hh].
  rewrite Hh. cbn [check nodeVersionCheck].
  destruct (semverMajor nodeVersion) as [major|].
  - destruct (major <? minMajor)%N; split; discriminate.
  - split; reflexivity.
Qed.

(** X17: no warning at all is given exactly when the real paths of the
    workspace root and of the home directory both resolve and differ, and
    the major version of the runtime is 20 or more. *)
Theorem getUserStartupWarnings_empty_iff :
  forall (realpath : string -> Settled string) (homedir : Settled string)
         (nodeVersion : string) (semverMajor : string -> Settled N)
         (workspaceRoot : string),
    getUserStartupWarnings realpath homedir nodeVersion semverMajor
      workspaceRoot = Resolved []
    <-> exists (home wr hr : string) (major : N),
          homedir = Resolved home
          /\ realpath workspaceRoot = Resolved wr
          /\ realpath home = Resolved hr
          /\ wr <> hr
          /\ semverMajor nodeVersion = Resolved major
          /\ (20 <= major)%N.
Proof.
  intros realpath homedir nodeVersion semverMajor workspaceRoot.
  unfold getUserStartupWarnings, WARNING_CHECKS. cbn [map promiseAll].
  cbn [check homeDirectoryCheck nodeVersionCheck]. split.
  - destruct homedir as [home|].
    + cbn [promiseAll].
      destruct (realpath workspaceRoot) as [wr|] eqn:Ew;
        destruct (realpath home) as [hr|] eqn:Eh;
        (destruct (semverMajor nodeVersion) as [major|] eqn:Em;
         [destruct (N.ltb_spec major minMajor) as [Hlt|Hge]|]);
        try (destruct (String.eqb wr hr) eqn:E);
        cbn [nonNull]; try discriminate.
      intros _. exists home, wr, hr, major.
      apply String.eqb_neq in E. repeat split; auto.
    + destruct (semverMajor nodeVersion) as [major|];
        [destruct (major <? minMajor)%N|]; cbn [nonNull]; discriminate.
  - intros [home [wr [hr [major [-> [Ew [Eh [Hne [Em Hge]]]]]]]]].
    cbn [promiseAll]. rewrite Ew, Eh, Em.
    apply String.eqb_neq in Hne. rewrite Hne.
    replace (major <? minMajor)%N with false
      by (symmetry; apply N.ltb_ge; exact Hge).
    reflexivity.
Qed.

(** X18: when the warnings resolve, the node-version warning, which quotes
    the version of the runtime, is among them exactly when its major
    version is below 20; it is never confused with a warning of the
    home-directory check. *)
Theorem getUserStartupWarnings_node_warning_iff :
  forall (realpath : string -> Settled string) (homedir : Settled string)
         (nodeVersion : string) (semverMajor : string -> Settled N)
         (workspaceRoot : string) (major : N),
    semverMajor nodeVersion = Resolved major ->
    exists l : list string,
      getUserStartupWarnings realpath homedir nodeVersion semverMajor
        workspaceRoot = Resolved l
      /\ (In ("You are using Node.js v" ++ nodeVersion
              ++ ". Gemini CLI requires Node.js 20 or higher for best results.")
             l
          <-> (major < 20)%N).
Proof.
  intros realpath homedir nodeVersion semverMajor workspaceRoot major Hm.
  unfold getUserStartupWarnings, WARNING_CHECKS. cbn [map promiseAll].
  destruct (homeDirectoryCheck_resolves realpath homedir workspaceRoot)
    as [h Hh].
  assert (Hh' : h = None \/ h = Some homeDirectoryWarning
                \/ h = Some fileSystemWarning).
  { revert Hh. cbn [check homeDirectoryCheck].
    destruct homedir as [home|]; [|intros [= <-]; auto].
    cbn [promiseAll].
    destruct (realpath workspaceRoot) as [wr|];
      destruct (realpath home) as [hr|]; try (intros [= <-]; auto).
    destruct (String.eqb wr hr); intros [= <-]; auto. }
  rewrite Hh. cbn [check nodeVersionCheck]. rewrite Hm.
  destruct (N.ltb_spec major minMajor) as [Hlt|Hge]; unfold minMajor in *;
    eexists; (split; [reflexivity|]);
    destruct Hh' as [-> | [-> | ->]]; cbn [nonNull In]; split;
    try (intros; lia); try (intros; auto; fail);
    intros H; repeat (destruct H as [H|H]); try contradiction;
    try discriminate H.
Qed.

Lemma getUserStartupWarnings_node_warning_iff_witness :
  exists l : list string,
    getUserStartupWarnings (fun p => Resolved p) (Resolved "/home/u")
      "22.1.0" (fun _ => Resolved 22%N) "/home/u"
    = Resolved l
    /\ (In "You are using Node.js v22.1.0. Gemini CLI requires Node.js 20 or higher for best results." l
        <-> (22 < 20)%N).
Proof.
  apply (getUserStartupWarnings_node_warning_iff (fun p => Resolved p)
           (Resolved "/home/u") "22.1.0" (fun _ => Resolved 22%N) "/home/u"
           22%N).
  reflexivity.
Defined.

(** * Invariants of a whole run *)

Lemma ofPrompt_stdout :
  forall (promptId : string) (ss : list string),
    forallb (ofPrompt promptId) (map Stdout ss) = true.
Proof. induction ss; cbn; auto. Qed.

Section RunInvariants.

Context {Client Tools : Type}.
Variable env : Env Client Tools.
Variable promptId : string.

Lemma consumeStream_stops_cancelled :
  forall t items k (w w' : World Client Tools) calls (stop : Abrupt),
    consumeStream env t k items w calls = inl (stop, w') ->
    stop = Return Cancelled.
Proof.
  intros t items. induction items as [|resp items IH];
    intros k w w' calls stop H; cbn [consumeStream] in H; [discriminate H|].
  destruct (signalAborted env t k).
  - now injection H as <- _.
  - exact (IH _ _ _ _ _ H).
Qed.

Lemma dispatchCall_stops :
  forall fc (w w' : World Client Tools) ps (stop : Abrupt),
    dispatchCall env promptId fc w ps = inl (stop, w') ->
    stop = Exit 1 \/ exists err, stop = Throw err.
Proof.
  intros fc w w' ps stop H. unfold dispatchCall in H.
  destruct (executeToolCall env (tools (emit _ w)) _) as [run ts1].
  destruct (outcome run) as [err|resp].
  - injection H as <- _. right. now exists err.
  - destruct (error resp) as [e|]; [|discriminate H].
    destruct (negb (Js.includes notFoundMarker (message e)));
      [|discriminate H].
    injection H as <- _. now left.
Qed.

Lemma dispatchCalls_stops :
  forall fcs (w w' : World Client Tools) ps (stop : Abrupt),
    dispatchCalls env promptId fcs w ps = inl (stop, w') ->
    stop = Exit 1 \/ exists err, stop = Throw err.
Proof.
  induction fcs as [|fc fcs IH]; intros w w' ps stop H;
    cbn [dispatchCalls] in H; [discriminate H|].
  destruct (dispatchCall env promptId fc w ps) as [[stop1 w1]|[w1 ps1]] eqn:Hc.
  - injection H as <- <-. exact (dispatchCall_stops _ _ _ _ _ Hc).
  - exact (IH _ _ _ _ H).
Qed.

Lemma loop_stops :
  forall (fuel : nat) (st : LoopState Client Tools) (stop : Abrupt)
         (w : World Client Tools),
    loop env fuel promptId st = Some (stop, w) ->
    (exists why, stop = Return why) \/ stop = Exit 1
    \/ exists err, stop = Throw err.
Proof.
  induction fuel as [|fuel IH]; intros st stop w H; [discriminate H|].
  cbn [loop] in H.
  destruct (turn env promptId st) as [[stop1 w1]|st1] eqn:Hturn;
    [|exact (IH _ _ _ H)].
  injection H as <- <-. unfold turn in Hturn.
  destruct ((0 <? getMaxSessionTurns env)%Z
            && (getMaxSessionTurns env <? turnCount st + 1)%Z).
  { injection Hturn as <- _. left. eauto. }
  destruct (sendMessageStream env (client (world st))
              (messageOf (currentMessages st)) promptId)
    as [responseStream client1].
  match type of Hturn with
  | context [consumeStream env ?t ?k ?items ?w0 ?calls] =>
      destruct (consumeStream env t k items w0 calls)
        as [[stop2 w2]|[w2 calls2]] eqn:Hcons
  end.
  { injection Hturn as <- _.
    rewrite (consumeStream_stops_cancelled _ _ _ _ _ _ _ Hcons).
    left. eauto. }
  destruct (failure responseStream) as [err|].
  { injection Hturn as <- _. right. right. eauto. }
  unfold afterStream in Hturn. destruct calls2 as [|fc fcs].
  { injection Hturn as <- _. left. eauto. }
  destruct (dispatchCalls env promptId (fc :: fcs) w2 [])
    as [[stop3 w3]|[w3 ps3]] eqn:Hd; [|discriminate Hturn].
  injection Hturn as <- _. right. exact (dispatchCalls_stops _ _ _ _ _ Hd).
Qed.

Lemma consumeStream_ofPrompt :
  forall t items k (w : World Client Tools) calls,
  exists es : list Event,
    trace (worldOf (consumeStream env t k items w calls)) = (trace w ++ es)%list
    /\ forallb (ofPrompt promptId) es = true.
Proof.
  intros t items. induction items as [|resp items IH]; intros k w calls.
  - exists []. cbn. now rewrite app_nil_r.
  - cbn [consumeStream]. destruct (signalAborted env t k).
    + cbn [worldOf emit trace]. eexists. split; reflexivity.
    + match goal with
      | |- context [consumeStream env t (S k) items ?w1 ?c1] =>
          destruct (IH (S k) w1 c1) as [es [Htr Hes]]
      end.
      destruct (getResponseText resp) as [s|];
        [destruct (Js.truthy s)|]; cbn [emit trace] in Htr;
        rewrite Htr, <- ?app_assoc; eexists; (split; [reflexivity|]);
        cbn; exact Hes.
Qed.

Lemma dispatchCall_ofPrompt :
  forall (fc : FunctionCall) (w : World Client Tools) (ps : list Part),
  exists es : list Event,
    trace (worldOf (dispatchCall env promptId fc w ps)) = (trace w ++ es)%list
    /\ forallb (ofPrompt promptId) es = true.
Proof.
  intros fc w ps. unfold dispatchCall. cbn [emit tools now trace client].
  assert (Hreq : forall ms,
             ofPrompt promptId (Dispatch (requestFor promptId fc ms)) = true).
  { intros ms. cbn. now rewrite String.eqb_refl. }
  destruct (executeToolCall env (tools w) (requestFor promptId fc (now w)))
    as [run ts1].
  destruct (outcome run) as [err|resp].
  - cbn [worldOf trace]. unfold display. rewrite <- app_assoc.
    eexists. split; [reflexivity|].
    rewrite forallb_app, ofPrompt_stdout. cbn [forallb].
    now rewrite Hreq.
  - destruct (error resp) as [e|];
      [destruct (negb (Js.includes notFoundMarker (message e)))|];
      cbn [worldOf]; unfold emit, errorReport, display; cbn [trace];
      rewrite <- !app_assoc; (eexists; split; [reflexivity|]);
      rewrite !forallb_app, !ofPrompt_stdout; cbn [forallb];
      rewrite Hreq; reflexivity.
Qed.

Lemma dispatchCalls_ofPrompt :
  forall (fcs : list FunctionCall) (w : World Client Tools) (ps : list Part),
  exists es : list Event,
    trace (worldOf (dispatchCalls env promptId fcs w ps)) = (trace w ++ es)%list
    /\ forallb (ofPrompt promptId) es = true.
Proof.
  induction fcs as [|fc fcs IH]; intros w ps; cbn [dispatchCalls].
  - exists []. cbn. now rewrite app_nil_r.
  - destruct (dispatchCall_ofPrompt fc w ps) as [es1 [Htr1 Hq1]].
    destruct (dispatchCall env promptId fc w ps) as [[stop w1]|[w1 ps1]];
      cbn [worldOf] in Htr1.
    + exists es1. cbn [worldOf]. now split.
    + destruct (IH w1 ps1) as [es2 [Htr2 Hq2]].
      exists (es1 ++ es2)%list. rewrite Htr2, Htr1, <- app_assoc.
      split; [reflexivity|]. now rewrite forallb_app, Hq1, Hq2.
Qed.

Lemma turn_ofPrompt :
  forall st : LoopState Client Tools,
  exists es : list Event,
    forallb (ofPrompt promptId) es = true
    /\ match turn env promptId st with
       | inl (_, w') => trace w' = (trace (world st) ++ es)%list
       | inr st' => trace (world st') = (trace (world st) ++ es)%list
       end.
Proof.
  intros st. unfold turn.
  destruct ((0 <? getMaxSessionTurns env)%Z
            && (getMaxSessionTurns env <? turnCount st + 1)%Z).
  { eexists. split; [|reflexivity]. reflexivity. }
  destruct (sendMessageStream env (client (world st))
              (messageOf (currentMessages st)) promptId)
    as [responseStream client1].
  assert (Hsend : ofPrompt promptId
                    (SendMessage (messageOf (currentMessages st)) promptId)
                  = true) by (cbn; apply String.eqb_refl).
  match goal with
  | |- context [consumeStream env ?t ?k ?items ?w ?calls] =>
      destruct (consumeStream_ofPrompt t items k w calls) as [es1 [Htr1 Hq1]];
      destruct (consumeStream env t k items w calls)
        as [[stop w2]|[w2 calls2]]
  end; cbn [worldOf trace] in Htr1.
  - eexists. split; [|rewrite Htr1, <- app_assoc; reflexivity].
    rewrite forallb_app, Hq1. cbn [forallb]. now rewrite Hsend.
  - destruct (failure responseStream) as [err|].
    + eexists. split; [|rewrite Htr1, <- app_assoc; reflexivity].
      rewrite forallb_app, Hq1. cbn [forallb]. now rewrite Hsend.
    + unfold afterStream. destruct calls2 as [|fc fcs].
      * eexists. split;
          [|cbn [emit trace]; rewrite Htr1, <- !app_assoc; reflexivity].
        rewrite !forallb_app, Hq1. cbn [forallb]. now rewrite Hsend.
      * destruct (dispatchCalls_ofPrompt (fc :: fcs) w2 []) as [es2 [Htr2 Hq2]].
        destruct (dispatchCalls env promptId (fc :: fcs) w2 [])
          as [[stop w3]|[w3 ps3]]; cbn [worldOf] in Htr2;
          (eexists; split;
           [|cbn [world]; rewrite Htr2, Htr1, <- !app_assoc; reflexivity]);
          rewrite !forallb_app, Hq1, Hq2; cbn [forallb]; now rewrite Hsend.
Qed.

Lemma loop_ofPrompt :
  forall (fuel : nat) (st : LoopState Client Tools) (stop : Abrupt)
         (w : World Client Tools),
    loop env fuel promptId st = Some (stop, w) ->
    exists es : list Event,
      trace w = (trace (world st) ++ es)%list
      /\ forallb (ofPrompt promptId) es = true.
Proof.
  induction fuel as [|fuel IH]; intros st stop w H; [discriminate H|].
  cbn [loop] in H. destruct (turn_ofPrompt st) as [es1 [Hq1 Hshape]].
  destruct (turn env promptId st) as [[stop1 w1]|st1].
  - injection H as <- <-. now exists es1.
  - destruct (IH st1 stop w H) as [es2 [Htr2 Hq2]].
    exists (es1 ++ es2)%list. rewrite Htr2, Hshape, <- app_assoc.
    split; [reflexivity|]. now rewrite forallb_app, Hq1, Hq2.
Qed.

End RunInvariants.

(** X19: a run ends with exit status 0 or 1 and no other: it returns, or
    it calls [process.exit(1)]. *)
Theorem exit_status_is_0_or_1 :
  forall (Client Tools : Type) (env : Env Client Tools) (fuel : nat)
         (input promptId : string) (w0 w : World Client Tools) (f : Final),
    runNonInteractive env fuel input promptId w0 = Some (f, w) ->
    (exists why, f = Returned why /\ exitStatus f = 0%Z)
    \/ (f = Exited 1 /\ exitStatus f = 1%Z).
Proof.
  intros Client Tools env fuel input promptId w0 w f H.
  unfold runNonInteractive in H.
  destruct (loop env fuel promptId (initialState input w0))
    as [[stop w1]|] eqn:Hloop; [|discriminate H].
  cbn [option_map] in H. injection H as Hfin.
  destruct (loop_stops env promptId fuel _ stop w1 Hloop)
    as [[why ->]|[->|[err ->]]]; cbn [finish] in Hfin;
    injection Hfin as <- _; eauto.
Qed.

Lemma exit_status_is_0_or_1_witness :
  (exists why, Exited 1 = Returned why /\ exitStatus (Exited 1) = 0%Z)
  \/ (Exited 1 = Exited 1 /\ exitStatus (Exited 1) = 1%Z).
Proof.
  apply (exit_status_is_0_or_1 nat unit
           (scriptedEnv 0 (fun _ => mkStream [callChunk [callOf "rm" []]] None)
              (fun _ => failWith "permission denied" "err" 1) neverAborted)
           1 "hi" "p" (freshWorld 1000)
           (mkWorld
              [ SendMessage [asTextPart "hi"] "p";
                Stdout (Js.LF ++ "[1000] 🔧 Executing tool: rm (no arguments)" ++ Js.LF);
                Dispatch (mkRequest "rm-1000" "rm" [] false "p");
                Stdout ("[1001] ❌ Tool rm failed: permission denied" ++ Js.LF);
                Stderr "Error executing tool rm: permission denied" ]
              1001 1%nat tt)
           (Exited 1)).
  vm_compute. reflexivity.
Defined.

(** X20: every message sent to the model and every request handed to the
    dispatcher in a run carries the prompt id the run was started with, and
    no request is marked as initiated by the client. *)
Theorem run_keeps_prompt_id :
  forall (Client Tools : Type) (env : Env Client Tools) (fuel : nat)
         (input promptId : string) (w0 w : World Client Tools) (f : Final),
    runNonInteractive env fuel input promptId w0 = Some (f, w) ->
    exists es : list Event,
      trace w = (trace w0 ++ es)%list
      /\ Forall (fun request =>
                   prompt_id request = promptId
                   /\ isClientInitiated request = false) (dispatched es)
      /\ forall msg p, In (SendMessage msg p) es -> p = promptId.
Proof.
  intros Client Tools env fuel input promptId w0 w f H.
  unfold runNonInteractive in H.
  destruct (loop env fuel promptId (initialState input w0))
    as [[stop w1]|] eqn:Hloop; [|discriminate H].
  destruct (loop_ofPrompt env promptId fuel _ stop w1 Hloop) as [es [Htr Hq]].
  cbn [initialState world] in Htr.
  cbn [option_map] in H. injection H as Hfin.
  assert (Hgen : forall es' : list Event,
             forallb (ofPrompt promptId) es' = true ->
             Forall (fun request =>
                       prompt_id request = promptId
                       /\ isClientInitiated request = false) (dispatched es')
             /\ forall msg p, In (SendMessage msg p) es' -> p = promptId).
  { induction es' as [|e es' IH]; intros Hall.
    - split; [constructor | intros msg p []].
    - cbn [forallb] in Hall. apply andb_true_iff in Hall.
      destruct Hall as [He Hrest]. destruct (IH Hrest) as [IH1 IH2].
      split.
      + destruct e; cbn [dispatched]; try exact IH1.
        constructor; [|exact IH1]. cbn in He. apply andb_true_iff in He.
        destruct He as [Hp Hc]. apply String.eqb_eq in Hp.
        split; [exact Hp | now destruct (isClientInitiated request)].
      + intros msg p [Heq|Hin]; [|exact (IH2 msg p Hin)].
        subst e. cbn in He. now apply String.eqb_eq in He. }
  assert (Hfinal : exists tail, trace w = (trace w1 ++ tail)%list
                                /\ forallb (ofPrompt promptId) tail = true).
  { destruct stop as [why|code|err]; cbn [finish] in Hfin;
      injection Hfin as _ <-.
    - destruct (isTelemetrySdkInitialized env).
      + exists [ShutdownTelemetry]. split; reflexivity.
      + exists []. now rewrite app_nil_r.
    - exists []. now rewrite app_nil_r.
    - eexists. split; reflexivity. }
  destruct Hfinal as [tail [Htail Hqt]].
  exists (es ++ tail)%list. rewrite Htail, Htr, <- app_assoc.
  split; [reflexivity|]. apply Hgen. now rewrite forallb_app, Hq, Hqt.
Qed.

Lemma run_keeps_prompt_id_witness :
  exists es : list Event,
    trace
      (mkWorld
         [ SendMessage [asTextPart "hi"] "p";
           Stdout (Js.LF ++ "[1000] 🔧 Executing tool: rm (no arguments)" ++ Js.LF);
           Dispatch (mkRequest "rm-1000" "rm" [] false "p");
           Stdout ("[1001] ❌ Tool rm failed: permission denied" ++ Js.LF);
           Stderr "Error executing tool rm: permission denied" ]
         1001 1%nat tt)
    = (trace (freshWorld 1000) ++ es)%list
    /\ Forall (fun request =>
                 prompt_id request = "p" /\ isClientInitiated request = false)
         (dispatched es)
    /\ forall msg p, In (SendMessage msg p) es -> p = "p".
Proof.
  apply (run_keeps_prompt_id nat unit
           (scriptedEnv 0 (fun _ => mkStream [callChunk [callOf "rm" []]] None)
              (fun _ => failWith "permission denied" "err" 1) neverAborted)
           1 "hi" "p" (freshWorld 1000) _ (Exited 1)).
  vm_compute. reflexivity.
Defined.
